(** * Stripe payment-failure monitor: a shallow embedding of [src/index.js]

    The service is sequential request/response glue over three SDKs (Stripe,
    Gmail, Airtable).  The embedding keeps that shape:

    - the module-level [recentLogs] array, the console, the system clock and
      the history of SDK calls form an explicit [State];
    - [async] functions are computations in a small state-and-exception monad
      [M]; [try { .. } catch (error) { .. }] is [try_catch];
    - the SDKs are not part of the repository: their outcomes are the fields
      of an [Env] record, each a function of the call history so far, so that
      every theorem holds for every behaviour of the outside world. *)

From Stdlib Require Import ZArith String Ascii List Bool Lia DecimalString.
From Stdlib Require Import PrimFloat Uint63.
Import ListNotations.

Local Open Scope list_scope.
Local Open Scope nat_scope.
Local Open Scope string_scope.

(** A decimal float literal denotes, as in JavaScript, the double nearest
    to it. *)
Set Warnings "-inexact-float".

(** ** JavaScript primitives used by the program *)

Module Js.

(** Truthiness of a value that is a string, [null] or [undefined]:
    [None] stands for null/undefined; the empty string is falsy too. *)
Definition truthy (v : option string) : bool :=
  match v with
  | Some s => negb (String.eqb s "")
  | None => false
  end.

(** [v || d] where [d] is a string. *)
Definition or_default (v : option string) (d : string) : string :=
  match v with
  | Some s => if truthy v then s else d
  | None => d
  end.

(** [a || b] where both operands may be null. *)
Definition or_else (a b : option string) : option string :=
  if truthy a then a else b.

(** [String.prototype.toUpperCase], on the ASCII range (the currency codes
    and log types of this program); other bytes are left as they are. *)
Definition upper_ascii (c : ascii) : ascii :=
  let n := nat_of_ascii c in
  if Nat.leb 97 n && Nat.leb n 122 then ascii_of_nat (n - 32) else c.

Fixpoint toUpperCase (s : string) : string :=
  match s with
  | EmptyString => EmptyString
  | String c r => String (upper_ascii c) (toUpperCase r)
  end.

(** A template literal's [${n}] for an integer number [n]. *)
Definition string_of_number (n : Z) : string :=
  NilZero.string_of_int (Z.to_int n).

(** The IEEE-754 double that holds the integer [n] (exact for
    [|n| < 2^53], the range in which JSON integers are exact). *)
Definition number_of_Z (n : Z) : float :=
  match n with
  | Z0 => 0%float
  | Zpos _ => PrimFloat.of_uint63 (Uint63.of_Z n)
  | Zneg p => PrimFloat.opp (PrimFloat.of_uint63 (Uint63.of_Z (Zpos p)))
  end.

(** [n / 100] on numbers. *)
Definition div100 (n : Z) : float :=
  PrimFloat.div (number_of_Z n) (number_of_Z 100).

(** [Buffer.from(s).toString('base64')]: strings are byte strings here. *)
Definition base64_alphabet : string :=
  "ABCDEFGHIJKLMNOPQRSTUVWXYZabcdefghijklmnopqrstuvwxyz0123456789+/".

Definition b64 (n : N) : ascii :=
  match String.get (N.to_nat n) base64_alphabet with
  | Some c => c
  | None => "="%char
  end.

Fixpoint base64_bytes (l : list ascii) : string :=
  match l with
  | [] => EmptyString
  | [a] =>
      let x := N_of_ascii a in
      String (b64 (x / 4)) (String (b64 ((x mod 4) * 16)) "==")
  | [a; b] =>
      let x := N_of_ascii a in
      let y := N_of_ascii b in
      String (b64 (x / 4))
        (String (b64 ((x mod 4) * 16 + y / 16))
           (String (b64 ((y mod 16) * 4)) "="))
  | a :: b :: c :: r =>
      let x := N_of_ascii a in
      let y := N_of_ascii b in
      let z := N_of_ascii c in
      String (b64 (x / 4))
        (String (b64 ((x mod 4) * 16 + y / 16))
           (String (b64 ((y mod 16) * 4 + z / 64))
              (String (b64 (z mod 64)) (base64_bytes r))))
  end%N.

Definition base64 (s : string) : string :=
  base64_bytes (list_ascii_of_string s).

(** [s.replace(/c/g, d)] for a one-character pattern. *)
Fixpoint replace_all (c d : ascii) (s : string) : string :=
  match s with
  | EmptyString => EmptyString
  | String x r =>
      String (if Ascii.eqb x c then d else x) (replace_all c d r)
  end.

(** [s.replace(/=+$/, '')]. *)
Fixpoint strip_trailing_eq (s : string) : string :=
  match s with
  | EmptyString => EmptyString
  | String x r =>
      match strip_trailing_eq r with
      | EmptyString =>
          if Ascii.eqb x "="%char then EmptyString else String x EmptyString
      | r' => String x r'
      end
  end.

(** [Array.prototype.slice(0, n)]. *)
Definition slice0 {A : Type} (n : nat) (l : list A) : list A := firstn n l.

End Js.

(** ** Data model *)

Module JsError.
(** A thrown [Error]; the program only reads its [message]. *)
Record t := { message : string }.
End JsError.

(** The outcome of a call that may throw. *)
Inductive result (A : Type) : Type :=
| Ok (a : A)
| Throw (e : JsError.t).
Arguments Ok {A} a.
Arguments Throw {A} e.

Module Customer.
(** What [stripe.customers.retrieve] resolves to (fields read here). *)
Record t := { email : option string; name : option string }.
End Customer.

Module LastPaymentError.
Record t := { message : option string }.
End LastPaymentError.

Module StripeObject.
(** [event.data.object]: the fields the handlers read.  For a
    [payment_intent.payment_failed] event it is the payment intent. *)
Record t := {
  id : string;
  customer : option string;
  amount : Z;
  currency : string;
  last_payment_error : option LastPaymentError.t
}.
End StripeObject.

Module Event.
(** The verified event envelope: [event.type] and [event.data.object]. *)
Record t := { type : string; data_object : StripeObject.t }.
End Event.

(** [failureData] *)
Record FailureRecord := {
  paymentId : string;
  customerEmail : string;
  customerName : string;
  amount : Z;
  currency : string;
  failureReason : string;
  failedAt : string
}.

(** The fields object handed to [base('Failed Payments').create]. *)
Record Row := {
  Payment_ID : string;
  Customer_Email : string;
  Customer_Name : string;
  Amount : float;
  Currency : string;
  Failure_Reason : string;
  Failed_At : string;
  Status : string
}.

Module AirtableRecord.
(** The record object the store resolves to. *)
Record t := { id : string; fields : Row }.
End AirtableRecord.

(** An entry of [recentLogs]. *)
Record LogEntry := { timestamp : string; message : string; type : string }.

(** Calls to the outside world, in the order they are made. *)
Inductive Call : Type :=
| CustomersRetrieve (customer : string)
| AuthGetClient
| GmailSend (raw : string)
| AirtableCreate (fields : Row).

(** The outside world.  [None] in an environment variable is [undefined]. *)
Record Env := {
  STRIPE_WEBHOOK_SECRET : option string;
  ALERT_EMAIL : option string;
  (** [new Date().toISOString()] at the n-th reading of the clock *)
  toISOString : nat -> string;
  (** [stripe.webhooks.constructEvent(body, sig, secret)] *)
  constructEvent : string -> option string -> option string -> result Event.t;
  (** [stripe.customers.retrieve(id)] *)
  customers_retrieve : list Call -> string -> result Customer.t;
  (** [auth.getClient()] *)
  auth_getClient : list Call -> result unit;
  (** [gmail.users.messages.send({userId: 'me', requestBody: {raw}})] *)
  gmail_send : list Call -> string -> result unit;
  (** [base('Failed Payments').create(fields)] *)
  airtable_create : list Call -> Row -> result AirtableRecord.t
}.

(** The mutable state of the process. *)
Record State := {
  recentLogs : list LogEntry;
  console : list string;
  clock : nat;
  calls : list Call
}.

Definition initial_state : State :=
  {| recentLogs := []; console := []; clock := 0; calls := [] |}.

(** [req] of the webhook route: raw body and [stripe-signature] header. *)
Record Request := { body : string; stripe_signature : option string }.

Inductive ResponseBody : Type :=
| SendText (text : string)
| JsonReceived (received : bool).

Record Response := { status : nat; payload : ResponseBody }.

(** ** The monad of the program *)

Definition M (A : Type) : Type := State -> result A * State.

Definition ret {A : Type} (a : A) : M A := fun s => (Ok a, s).

Definition bind {A B : Type} (m : M A) (k : A -> M B) : M B :=
  fun s =>
    match m s with
    | (Ok a, s') => k a s'
    | (Throw e, s') => (Throw e, s')
    end.

Definition try_catch {A : Type} (body : M A) (handler : JsError.t -> M A) : M A :=
  fun s =>
    match body s with
    | (Ok a, s') => (Ok a, s')
    | (Throw e, s') => handler e s'
    end.

(** [await f(..)] on an SDK: the outcome is the world's answer given the
    history, and the call joins the history. *)
Definition record_call (c : Call) (s : State) : State :=
  {| recentLogs := recentLogs s; console := console s;
     clock := clock s; calls := (calls s ++ [c])%list |}.

Definition await {A : Type} (c : Call) (answer : list Call -> result A) : M A :=
  fun s => (answer (calls s), record_call c s).

Declare Scope js_scope.
Delimit Scope js_scope with js.
Notation "x <- m ;; k" := (bind m (fun x => k))
  (at level 100, m at next level, right associativity) : js_scope.
Notation "m ;; k" := (bind m (fun _ => k))
  (at level 100, right associativity) : js_scope.
Local Open Scope js_scope.

Definition exec {A : Type} (m : M A) (s : State) : State := snd (m s).
Definition eval {A : Type} (m : M A) (s : State) : result A := fst (m s).

(** ** The program *)

Definition nl : string := String "010"%char EmptyString.
Definition dq : string := String "034"%char EmptyString.

Section Program.

Variable env : Env.

(** [new Date().toISOString()] *)
Definition now : M string :=
  fun s =>
    (Ok (toISOString env (clock s)),
     {| recentLogs := recentLogs s; console := console s;
        clock := S (clock s); calls := calls s |}).

(** [recentLogs.unshift(logEntry)] followed by the capacity check. *)
Definition unshift_capped (logEntry : LogEntry) (logs : list LogEntry)
  : list LogEntry :=
  let logs := logEntry :: logs in
  if Nat.ltb 50 (length logs) then Js.slice0 50 logs else logs.

(** The line [addLog] writes with [console.log]. *)
Definition consoleLine (timestamp message type : string) : string :=
  "[" ++ timestamp ++ "] " ++ Js.toUpperCase type ++ ": " ++ message.

(** [addLog(message, type)]; callers that omit [type] pass ['info']. *)
Definition addLog (message : string) (type : string) : M unit :=
  timestamp <- now ;;
  let logEntry :=
    {| timestamp := timestamp; message := message; type := type |} in
  fun s =>
    (Ok tt,
     {| recentLogs := unshift_capped logEntry (recentLogs s);
        console :=
          (console s ++ [consoleLine timestamp message type])%list;
        clock := clock s;
        calls := calls s |}).

(** The template literal of [sendGmailAlert]. *)
Definition emailContent (failureData : FailureRecord) : string :=
  nl ++
  "Subject: 🚨 Payment Failed Alert - " ++ customerEmail failureData ++ nl ++
  "To: " ++ Js.or_default (ALERT_EMAIL env) "your-email@example.com" ++ nl ++
  "Content-Type: text/html; charset=utf-8" ++ nl ++
  nl ++
  "<html>" ++ nl ++
  "<body>" ++ nl ++
  "  <h2>🚨 Payment Failure Alert</h2>" ++ nl ++
  "  <p>A payment has failed and requires attention:</p>" ++ nl ++
  "  " ++ nl ++
  "  <table border=" ++ dq ++ "1" ++ dq ++ " cellpadding=" ++ dq ++ "10" ++ dq
    ++ " cellspacing=" ++ dq ++ "0" ++ dq ++ ">" ++ nl ++
  "    <tr><td><strong>Payment ID:</strong></td><td>"
    ++ paymentId failureData ++ "</td></tr>" ++ nl ++
  "    <tr><td><strong>Customer:</strong></td><td>"
    ++ customerName failureData ++ " (" ++ customerEmail failureData
    ++ ")</td></tr>" ++ nl ++
  "    <tr><td><strong>Amount:</strong></td><td>"
    ++ Js.string_of_number (amount failureData) ++ " "
    ++ Js.toUpperCase (currency failureData) ++ "</td></tr>" ++ nl ++
  "    <tr><td><strong>Failure Reason:</strong></td><td>"
    ++ failureReason failureData ++ "</td></tr>" ++ nl ++
  "    <tr><td><strong>Failed At:</strong></td><td>"
    ++ failedAt failureData ++ "</td></tr>" ++ nl ++
  "  </table>" ++ nl ++
  "  " ++ nl ++
  "  <p><strong>Action Required:</strong> Please review this failed payment and take appropriate action.</p>" ++ nl ++
  "  " ++ nl ++
  "  <p>View in Stripe Dashboard: <a href=" ++ dq
    ++ "https://dashboard.stripe.com/payments/" ++ paymentId failureData
    ++ dq ++ ">Click here</a></p>" ++ nl ++
  "</body>" ++ nl ++
  "</html>".

(** [Buffer.from(emailContent).toString('base64')] made URL-safe. *)
Definition encodedEmail (failureData : FailureRecord) : string :=
  Js.strip_trailing_eq
    (Js.replace_all "/"%char "_"%char
       (Js.replace_all "+"%char "-"%char
          (Js.base64 (emailContent failureData)))).

(** The [try] block of [sendGmailAlert]; [google.options] only installs the
    client for the send that follows. *)
Definition sendGmailAlert_try (failureData : FailureRecord) : M bool :=
  await AuthGetClient (auth_getClient env) ;;
  let raw := encodedEmail failureData in
  await (GmailSend raw) (fun history => gmail_send env history raw) ;;
  addLog ("Email alert sent for payment failure: " ++ paymentId failureData)
    "info" ;;
  ret true.

Definition sendGmailAlert (failureData : FailureRecord) : M bool :=
  try_catch (sendGmailAlert_try failureData)
    (fun error =>
       addLog ("Failed to send email alert: " ++ JsError.message error)
         "error" ;;
       ret false).

(** The object literal passed to [create]. *)
Definition airtableFields (failureData : FailureRecord) : Row :=
  {| Payment_ID := paymentId failureData;
     Customer_Email := customerEmail failureData;
     Customer_Name := customerName failureData;
     Amount := Js.div100 (amount failureData);
     Currency := Js.toUpperCase (currency failureData);
     Failure_Reason := failureReason failureData;
     Failed_At := failedAt failureData;
     Status := "Failed" |}.

(** The [try] block of [updateAirtableRecord]. *)
Definition updateAirtableRecord_try (failureData : FailureRecord)
  : M (option AirtableRecord.t) :=
  let fields := airtableFields failureData in
  record <- await (AirtableCreate fields)
              (fun history => airtable_create env history fields) ;;
  addLog ("Created Airtable record for failed payment: "
          ++ AirtableRecord.id record) "info" ;;
  ret (Some record).

(** Resolves to the record object, or to [null] ([None]). *)
Definition updateAirtableRecord (failureData : FailureRecord)
  : M (option AirtableRecord.t) :=
  try_catch (updateAirtableRecord_try failureData)
    (fun error =>
       addLog ("Failed to create Airtable record: " ++ JsError.message error)
         "error" ;;
       ret None).

(** The customer the pipeline works with: looked up when
    [paymentIntent.customer] is truthy, the literal object otherwise. *)
Definition resolveCustomer (paymentIntent : StripeObject.t) : M Customer.t :=
  match StripeObject.customer paymentIntent with
  | Some ref =>
      if Js.truthy (Some ref)
      then await (CustomersRetrieve ref)
             (fun history => customers_retrieve env history ref)
      else ret {| Customer.email := Some "Unknown";
                  Customer.name := Some "Unknown Customer" |}
  | None =>
      ret {| Customer.email := Some "Unknown";
             Customer.name := Some "Unknown Customer" |}
  end.

(** [paymentIntent.last_payment_error?.message] *)
Definition last_payment_error_message (paymentIntent : StripeObject.t)
  : option string :=
  match StripeObject.last_payment_error paymentIntent with
  | Some e => LastPaymentError.message e
  | None => None
  end.

(** The [failureData] object literal. *)
Definition buildFailureData (paymentIntent : StripeObject.t)
    (customer : Customer.t) (failedAt : string) : FailureRecord :=
  {| paymentId := StripeObject.id paymentIntent;
     customerEmail := Js.or_default (Customer.email customer) "Unknown";
     customerName :=
       Js.or_default
         (Js.or_else (Customer.name customer) (Customer.email customer))
         "Unknown Customer";
     amount := StripeObject.amount paymentIntent;
     currency := StripeObject.currency paymentIntent;
     failureReason :=
       Js.or_default (last_payment_error_message paymentIntent)
         "Unknown error";
     failedAt := failedAt |}.

(** The sink calls and the closing log line of the [try] block. *)
Definition fanOut (failureData : FailureRecord) : M unit :=
  sendGmailAlert failureData ;;
  updateAirtableRecord failureData ;;
  addLog ("Successfully processed failed payment: " ++ paymentId failureData)
    "info".

(** The [try] block of [processFailedPayment]. *)
Definition processFailedPayment_try (paymentIntent : StripeObject.t) : M unit :=
  customer <- resolveCustomer paymentIntent ;;
  failedAt <- now ;;
  let failureData := buildFailureData paymentIntent customer failedAt in
  addLog ("Processing failed payment: " ++ paymentId failureData ++ " for "
          ++ customerEmail failureData) "info" ;;
  fanOut failureData.

Definition processFailedPayment (paymentIntent : StripeObject.t) : M unit :=
  try_catch (processFailedPayment_try paymentIntent)
    (fun error =>
       addLog ("Error processing failed payment: " ++ JsError.message error)
         "error").

(** The [switch (event.type)] of the webhook route. *)
Definition dispatch (event : Event.t) : M unit :=
  let object := Event.data_object event in
  if String.eqb (Event.type event) "payment_intent.payment_failed" then
    processFailedPayment object
  else if String.eqb (Event.type event) "charge.failed" then
    addLog ("Charge failed: " ++ StripeObject.id object) "info"
  else if String.eqb (Event.type event) "invoice.payment_failed" then
    addLog ("Invoice payment failed: " ++ StripeObject.id object) "info"
  else
    addLog ("Unhandled event type: " ++ Event.type event) "warning".

(** [app.post('/webhook', ..)] *)
Definition post_webhook (req : Request) : M Response :=
  let sig := stripe_signature req in
  let webhookSecret := STRIPE_WEBHOOK_SECRET env in
  match constructEvent env (body req) sig webhookSecret with
  | Throw err =>
      addLog ("Webhook signature verification failed: " ++ JsError.message err)
        "error" ;;
      ret {| status := 400;
             payload := SendText ("Webhook Error: " ++ JsError.message err) |}
  | Ok event =>
      addLog ("Received webhook event: " ++ Event.type event) "info" ;;
      dispatch event ;;
      ret {| status := 200; payload := JsonReceived true |}
  end.

(** A run of appends, as any sequence of [addLog] calls makes. *)
Fixpoint addLogs (entries : list (string * string)) : M unit :=
  match entries with
  | [] => ret tt
  | (message, type) :: rest => addLog message type ;; addLogs rest
  end.

(** The entries such a run creates, oldest first, the first one stamped
    at clock reading [k]. *)
Fixpoint stamped (k : nat) (entries : list (string * string))
  : list LogEntry :=
  match entries with
  | [] => []
  | (message, type) :: rest =>
      {| timestamp := toISOString env k; message := message; type := type |}
      :: stamped (S k) rest
  end.

End Program.

(** ** Vocabulary of the specification *)

(** The calls made between two states of one run. *)
Definition new_calls (before after : State) : list Call :=
  skipn (length (calls before)) (calls after).

(** The email sink has been entered: its first action is the auth handshake. *)
Definition email_sink_invoked (cs : list Call) : Prop := In AuthGetClient cs.

(** The record-store sink has been entered: it always issues a [create]. *)
Definition record_sink_invoked (cs : list Call) : Prop :=
  exists fields, In (AirtableCreate fields) cs.

Definition customer_lookup_made (cs : list Call) : Prop :=
  exists ref, In (CustomersRetrieve ref) cs.

(** [before ++ x ++ after = s] for some [before] and [after]. *)
Definition embeds (x s : string) : Prop :=
  exists before after, s = before ++ x ++ after.

(** The literal object used when the payment intent names no customer. *)
Definition unknownCustomer : Customer.t :=
  {| Customer.email := Some "Unknown";
     Customer.name := Some "Unknown Customer" |}.

(** The enrichment policy as the specification words it, for one run: when
    the lookup of a present customer reference throws, both sinks are still
    entered. *)
Definition lookup_failure_isolated (env : Env) (paymentIntent : StripeObject.t)
    (s : State) : Prop :=
  forall ref e,
    StripeObject.customer paymentIntent = Some ref ->
    Js.truthy (Some ref) = true ->
    customers_retrieve env (calls s) ref = Throw e ->
    let s' := exec (processFailedPayment env paymentIntent) s in
    email_sink_invoked (new_calls s s') /\
    record_sink_invoked (new_calls s s').

(** The dispatch policy as the specification words it for the
    payment-intent branch, for one run: the dispatch of a
    [payment_intent.payment_failed] event has entered both sinks. *)
Definition failed_intent_reaches_both_sinks (env : Env) (event : Event.t)
    (s : State) : Prop :=
  Event.type event = "payment_intent.payment_failed" ->
  let s' := exec (dispatch env event) s in
  email_sink_invoked (new_calls s s') /\
  record_sink_invoked (new_calls s s').

(** What a caller of [updateAirtableRecord] holds afterwards. *)
Inductive JsValue : Type :=
| JsNull
| JsString (s : string)
| JsObject (record : AirtableRecord.t).

Definition returned (r : option AirtableRecord.t) : JsValue :=
  match r with
  | Some record => JsObject record
  | None => JsNull
  end.

(** The return value as the specification words it: the identifier of the
    created row on success, null on failure. *)
Definition identifier_or_null (outcome : result AirtableRecord.t) : JsValue :=
  match outcome with
  | Ok record => JsString (AirtableRecord.id record)
  | Throw _ => JsNull
  end.

(** ** The remaining routes and the startup

    The status, logs, health and manual-test routes and the [app.listen]
    callback.  Two read-only SDK requests appear here only
    ([stripe.customers.list] and the first-page read of the table); they are
    recorded in a history of their own beside the process state. *)

Inductive Probe : Type :=
| CustomersList (limit : nat)
| FailedPaymentsFirstPage (maxRecords : nat).

(** The rest of the outside world. *)
Record Deployment := {
  PORT : option string;
  (** [Date.now()] at the n-th reading of the clock *)
  date_now : nat -> Z;
  (** [stripe.customers.list({ limit: 1 })] *)
  customers_list : list Call -> list Probe -> result unit;
  (** [base('Failed Payments').select({ maxRecords: 1 }).firstPage()] *)
  failed_payments_firstPage : list Call -> list Probe -> result unit
}.

Record Server := { process : State; probes : list Probe }.

Definition Task (A : Type) : Type := Server -> result A * Server.

Definition retT {A : Type} (a : A) : Task A := fun sv => (Ok a, sv).

Definition bindT {A B : Type} (m : Task A) (k : A -> Task B) : Task B :=
  fun sv =>
    match m sv with
    | (Ok a, sv') => k a sv'
    | (Throw e, sv') => (Throw e, sv')
    end.

Definition try_catchT {A : Type} (body : Task A) (handler : JsError.t -> Task A)
  : Task A :=
  fun sv =>
    match body sv with
    | (Ok a, sv') => (Ok a, sv')
    | (Throw e, sv') => handler e sv'
    end.

(** A computation of the program, run on the process state. *)
Definition lift {A : Type} (m : M A) : Task A :=
  fun sv =>
    (eval m (process sv),
     {| process := exec m (process sv); probes := probes sv |}).

(** [await] on a read-only request. *)
Definition probe (p : Probe) (answer : list Call -> list Probe -> result unit)
  : Task unit :=
  fun sv =>
    (answer (calls (process sv)) (probes sv),
     {| process := process sv; probes := (probes sv ++ [p])%list |}).

Declare Scope task_scope.
Delimit Scope task_scope with task.
Notation "x <- m ;; k" := (bindT m (fun x => k))
  (at level 100, m at next level, right associativity) : task_scope.
Notation "m ;; k" := (bindT m (fun _ => k))
  (at level 100, right associativity) : task_scope.

Module StatusPage.
(** The body of [GET /]. *)
Record t := {
  status : string;
  service : string;
  endpoints : list (string * string);
  features : list string;
  lastActivity : string
}.
End StatusPage.

Module LogsPage.
(** The body of [GET /logs]. *)
Record t := { logs : list LogEntry; total : nat }.
End LogsPage.

Module Health.
Record services := { stripe : string; airtable : string; gmail : string }.
(** The two bodies of [GET /health]. *)
Inductive body : Type :=
| healthy (status : string) (timestamp : string) (services : services)
| unhealthy (status : string) (error : string) (timestamp : string).
End Health.

Module ManualTest.
Record results := { emailSent : bool; airtableRecord : option string }.
(** The two bodies of [POST /test]. *)
Inductive body : Type :=
| completed (success : bool) (message : string) (results : results)
| failed (success : bool) (error : string).
End ManualTest.

(** [res.status(code).json(json)]; [res.json] alone answers 200. *)
Record Reply (B : Type) := { code : nat; json : B }.
Arguments code {B} r.
Arguments json {B} r.

(** [app.get('/', ..)] *)
Definition get_root (s : State) : Reply StatusPage.t :=
  {| code := 200;
     json :=
       {| StatusPage.status := "Active";
          StatusPage.service := "Stripe Payment Failure Monitor";
          StatusPage.endpoints :=
            [("/", "Status and available endpoints");
             ("/health", "Health check");
             ("/logs", "View recent logs");
             ("/test", "Manual test run (POST)");
             ("/webhook", "Stripe webhook endpoint (POST)")];
          StatusPage.features :=
            ["Monitors Stripe for failed payments";
             "Sends Gmail alerts for failures";
             "Updates Airtable Failed Payments table";
             "Webhook event processing"];
          StatusPage.lastActivity :=
            Js.or_default (option_map timestamp (hd_error (recentLogs s)))
              "No activity yet" |} |}.

(** [app.get('/logs', ..)] *)
Definition get_logs (s : State) : Reply LogsPage.t :=
  {| code := 200;
     json := {| LogsPage.logs := Js.slice0 20 (recentLogs s);
                LogsPage.total := length (recentLogs s) |} |}.

Section ManualTestRoute.

Variable env : Env.
Variable dep : Deployment.

(** [Date.now()] *)
Definition dateNow : M Z :=
  fun s =>
    (Ok (date_now dep (clock s)),
     {| recentLogs := recentLogs s; console := console s;
        clock := S (clock s); calls := calls s |}).

(** The [testData] object literal. *)
Definition buildTestData (millis : Z) (failedAt : string) : FailureRecord :=
  {| paymentId := "test_" ++ Js.string_of_number millis;
     customerEmail := Js.or_default (ALERT_EMAIL env) "test@example.com";
     customerName := "Test Customer";
     amount := 2999;
     currency := "usd";
     failureReason := "Test failure - manual test run";
     failedAt := failedAt |}.

(** The [try] block of [app.post('/test', ..)]. *)
Definition post_test_try : M (Reply ManualTest.body) :=
  (addLog env "Manual test initiated" "info" ;;
   millis <- dateNow ;;
   failedAt <- now env ;;
   let testData := buildTestData millis failedAt in
   emailSent <- sendGmailAlert env testData ;;
   airtableRecord <- updateAirtableRecord env testData ;;
   ret {| code := 200;
          json :=
            ManualTest.completed true "Test completed"
              {| ManualTest.emailSent := emailSent;
                 ManualTest.airtableRecord :=
                   option_map AirtableRecord.id airtableRecord |} |})%js.

(** [app.post('/test', ..)] *)
Definition post_test : M (Reply ManualTest.body) :=
  try_catch post_test_try
    (fun error =>
       (addLog env ("Test failed: " ++ JsError.message error) "error" ;;
        ret {| code := 500;
               json := ManualTest.failed false (JsError.message error) |})%js).

End ManualTestRoute.

Section ServerRoutes.

Variable env : Env.
Variable dep : Deployment.

Local Open Scope task_scope.

(** [async function ensureFailedPaymentsTable()] *)
Definition ensureFailedPaymentsTable : Task bool :=
  try_catchT
    (probe (FailedPaymentsFirstPage 1) (failed_payments_firstPage dep) ;;
     lift (addLog env "Failed Payments table already exists" "info") ;;
     retT true)
    (fun error =>
       lift (addLog env
               "Failed Payments table needs to be created manually in Airtable"
               "warning") ;;
       lift (addLog env
               ("Please create a table called " ++ dq ++ "Failed Payments" ++ dq
                ++ " with these fields:") "info") ;;
       lift (addLog env "- Payment ID (Single line text)" "info") ;;
       lift (addLog env "- Customer Email (Email)" "info") ;;
       lift (addLog env "- Customer Name (Single line text)" "info") ;;
       lift (addLog env "- Amount (Currency)" "info") ;;
       lift (addLog env "- Currency (Single line text)" "info") ;;
       lift (addLog env "- Failure Reason (Single line text)" "info") ;;
       lift (addLog env "- Failed At (Date)" "info") ;;
       lift (addLog env "- Status (Single select: Failed, Retrying, Resolved)"
               "info") ;;
       retT false).

(** The port the server listens on, as [${port}] prints it:
    [process.env.PORT || 3000]. *)
Definition port : string := Js.or_default (PORT dep) "3000".

(** The callback of [app.listen(port, ..)]. *)
Definition on_listen : Task unit :=
  lift (addLog env ("Stripe Payment Monitor started on port " ++ port) "info") ;;
  ensureFailedPaymentsTable ;;
  lift (addLog env "Ready to monitor payment failures" "info").

(** The [try] block of [app.get('/health', ..)]. *)
Definition get_health_try : Task (Reply Health.body) :=
  probe (CustomersList 1) (customers_list dep) ;;
  probe (FailedPaymentsFirstPage 1) (failed_payments_firstPage dep) ;;
  lift (await AuthGetClient (auth_getClient env)) ;;
  timestamp <- lift (now env) ;;
  retT {| code := 200;
          json :=
            Health.healthy "healthy" timestamp
              {| Health.stripe := "connected";
                 Health.airtable := "connected";
                 Health.gmail := "connected" |} |}.

(** [app.get('/health', ..)] *)
Definition get_health : Task (Reply Health.body) :=
  try_catchT get_health_try
    (fun error =>
       timestamp <- lift (now env) ;;
       retT {| code := 500;
               json :=
                 Health.unhealthy "unhealthy" (JsError.message error)
                   timestamp |}).

End ServerRoutes.

(** The console line of a log entry. *)
Definition line_of (e : LogEntry) : string :=
  consoleLine (timestamp e) (message e) (type e).

(** The URL-safe base64 alphabet, as a test on one character. *)
Definition url_safe (c : ascii) : bool :=
  let n := nat_of_ascii c in
  (Nat.leb 65 n && Nat.leb n 90) || (Nat.leb 97 n && Nat.leb n 122)
  || (Nat.leb 48 n && Nat.leb n 57) || Nat.eqb n 45 || Nat.eqb n 95.

(** Every character of a string passes a test. *)
Fixpoint every (p : ascii -> bool) (s : string) : bool :=
  match s with
  | EmptyString => true
  | String c r => p c && every p r
  end.

(** The standard base64 alphabet, without the padding character. *)
Definition is_base64 (c : ascii) : bool :=
  let n := nat_of_ascii c in
  (Nat.leb 65 n && Nat.leb n 90) || (Nat.leb 97 n && Nat.leb n 122)
  || (Nat.leb 48 n && Nat.leb n 57) || Nat.eqb n 43 || Nat.eqb n 47.

(** The lines the startup check logs when the table cannot be read. *)
Definition schema_help : list (string * string) :=
  [("Failed Payments table needs to be created manually in Airtable",
    "warning");
   ("Please create a table called " ++ dq ++ "Failed Payments" ++ dq
    ++ " with these fields:", "info");
   ("- Payment ID (Single line text)", "info");
   ("- Customer Email (Email)", "info");
   ("- Customer Name (Single line text)", "info");
   ("- Amount (Currency)", "info");
   ("- Currency (Single line text)", "info");
   ("- Failure Reason (Single line text)", "info");
   ("- Failed At (Date)", "info");
   ("- Status (Single select: Failed, Retrying, Resolved)", "info")].

(** The process has just started. *)
Definition initial_server : Server :=
  {| process := initial_state; probes := [] |}.

(** ** Concrete worlds and inputs *)

Module Examples.

Definition intent (customer : option string) : StripeObject.t :=
  {| StripeObject.id := "pi_1";
     StripeObject.customer := customer;
     StripeObject.amount := 2999;
     StripeObject.currency := "usd";
     StripeObject.last_payment_error :=
       Some {| LastPaymentError.message := Some "Your card was declined." |} |}.

(** The event a body stands for in these worlds: the body spells the event
    type; one body stands for a failed intent of customer [cus_1]. *)
Definition parse (body : string) : Event.t :=
  if String.eqb body "payment_intent.payment_failed cus_1" then
    {| Event.type := "payment_intent.payment_failed";
       Event.data_object := intent (Some "cus_1") |}
  else
    {| Event.type := body; Event.data_object := intent None |}.

(** A world whose signature check accepts the header ["good"] only, and
    whose three services work or fail as the flags say. *)
Definition world (lookup_ok email_ok store_ok : bool) : Env :=
  {| STRIPE_WEBHOOK_SECRET := Some "whsec_test";
     ALERT_EMAIL := None;
     toISOString := fun n => "T" ++ Js.string_of_number (Z.of_nat n);
     constructEvent := fun body sig _ =>
       match sig with
       | Some h =>
           if String.eqb h "good" then Ok (parse body)
           else Throw {| JsError.message := "No signatures found matching the expected signature for payload." |}
       | None => Throw {| JsError.message := "No stripe-signature header value was provided." |}
       end;
     customers_retrieve := fun _ ref =>
       if lookup_ok
       then Ok {| Customer.email := Some "ada@example.com";
                  Customer.name := Some "Ada" |}
       else Throw {| JsError.message := "No such customer: " ++ ref |};
     auth_getClient := fun _ =>
       if email_ok then Ok tt
       else Throw {| JsError.message := "invalid_grant" |};
     gmail_send := fun _ _ => Ok tt;
     airtable_create := fun _ fields =>
       if store_ok then Ok {| AirtableRecord.id := "rec1";
                              AirtableRecord.fields := fields |}
       else Throw {| JsError.message := "NOT_FOUND" |} |}.

Definition all_up : Env := world true true true.

Definition testData : FailureRecord :=
  {| paymentId := "test_1";
     customerEmail := "test@example.com";
     customerName := "Test Customer";
     amount := 2999;
     currency := "usd";
     failureReason := "Test failure - manual test run";
     failedAt := "T0" |}.

Definition signed (body : string) : Request :=
  {| body := body; stripe_signature := Some "good" |}.

Definition forged (body : string) : Request :=
  {| body := body; stripe_signature := Some "bad" |}.

(** [n] distinct messages, as [(message, type)] pairs. *)
Definition numbered (n : nat) : list (string * string) :=
  map (fun k => ("m" ++ Js.string_of_number (Z.of_nat k), "info")) (seq 0 n).

End Examples.

(** ** Concrete deployments *)

Module Deployments.

(** A deployment whose Stripe list and table read work or fail as the flags
    say; the epoch clock counts seconds from 1700000000000 ms. *)
Definition deployment (stripe_ok table_ok : bool) : Deployment :=
  {| PORT := None;
     date_now := fun n => (1700000000000 + 1000 * Z.of_nat n)%Z;
     customers_list := fun _ _ =>
       if stripe_ok then Ok tt
       else Throw {| JsError.message := "Invalid API Key provided" |};
     failed_payments_firstPage := fun _ _ =>
       if table_ok then Ok tt
       else Throw {| JsError.message := "TABLE_NOT_FOUND" |} |}.

Definition healthy_deployment : Deployment := deployment true true.

End Deployments.

(** ** Properties *)

Section Properties.

Variable env : Env.

(** *** Running the monad *)

Lemma bind_ok {A B : Type} (m : M A) (k : A -> M B) s a s' :
  m s = (Ok a, s') -> bind m k s = k a s'.
Proof. intros H. unfold bind. now rewrite H. Qed.

Lemma bind_throw {A B : Type} (m : M A) (k : A -> M B) s e s' :
  m s = (Throw e, s') -> bind m k s = (Throw e, s').
Proof. intros H. unfold bind. now rewrite H. Qed.

Lemma try_catch_ok {A : Type} (m : M A) h s a s' :
  m s = (Ok a, s') -> try_catch m h s = (Ok a, s').
Proof. intros H. unfold try_catch. now rewrite H. Qed.

Lemma try_catch_throw {A : Type} (m : M A) h s e s' :
  m s = (Throw e, s') -> try_catch m h s = h e s'.
Proof. intros H. unfold try_catch. now rewrite H. Qed.

(** *** The activity log *)

Lemma addLog_ok message type s :
  addLog env message type s = (Ok tt, exec (addLog env message type) s).
Proof. reflexivity. Qed.

Lemma addLog_calls message type s :
  calls (exec (addLog env message type) s) = calls s.
Proof. reflexivity. Qed.

Lemma addLog_clock message type s :
  clock (exec (addLog env message type) s) = S (clock s).
Proof. reflexivity. Qed.

Lemma addLog_recentLogs message type s :
  recentLogs (exec (addLog env message type) s) =
  unshift_capped
    {| timestamp := toISOString env (clock s);
       message := message; type := type |}
    (recentLogs s).
Proof. reflexivity. Qed.

Lemma unshift_capped_firstn e logs :
  unshift_capped e logs = firstn 50 (e :: logs).
Proof.
  unfold unshift_capped, Js.slice0.
  destruct (Nat.ltb 50 (length (e :: logs))) eqn:Hlen; [reflexivity|].
  apply Nat.ltb_ge in Hlen. symmetry. now apply firstn_all2.
Qed.

Lemma unshift_capped_length e logs : length (unshift_capped e logs) <= 50.
Proof. rewrite unshift_capped_firstn. apply firstn_le_length. Qed.

Lemma unshift_capped_head e logs : hd_error (unshift_capped e logs) = Some e.
Proof. rewrite unshift_capped_firstn. reflexivity. Qed.

Lemma addLogs_ok entries : forall s,
  addLogs env entries s = (Ok tt, exec (addLogs env entries) s).
Proof.
  induction entries as [|[m t] rest IH]; intros s; [reflexivity|].
  cbn [addLogs]. unfold exec.
  rewrite (bind_ok _ _ _ _ _ (addLog_ok m t s)).
  rewrite IH. reflexivity.
Qed.

Lemma addLogs_step m t rest s :
  exec (addLogs env ((m, t) :: rest)) s =
  exec (addLogs env rest) (exec (addLog env m t) s).
Proof.
  unfold exec at 1. cbn [addLogs].
  now rewrite (bind_ok _ _ _ _ _ (addLog_ok m t s)).
Qed.

Lemma addLogs_recentLogs entries : forall s,
  length (recentLogs s) <= 50 ->
  recentLogs (exec (addLogs env entries) s) =
  firstn 50 (rev (stamped env (clock s) entries) ++ recentLogs s).
Proof.
  induction entries as [|[m t] rest IH]; intros s Hs.
  - change (recentLogs s = firstn 50 (recentLogs s)).
    symmetry. now apply firstn_all2.
  - rewrite addLogs_step, IH
      by (rewrite addLog_recentLogs; apply unshift_capped_length).
    rewrite addLog_clock, addLog_recentLogs, unshift_capped_firstn.
    cbn [stamped rev]. rewrite <- app_assoc. cbn [app].
    rewrite !firstn_app. f_equal.
    rewrite firstn_firstn. f_equal. lia.
Qed.

Lemma stamped_length k entries : length (stamped env k entries) = length entries.
Proof.
  revert k. induction entries as [|[m t] rest IH]; intros k; cbn; [reflexivity|].
  now rewrite IH.
Qed.

Lemma stamped_app k a b :
  stamped env k (a ++ b)%list
  = (stamped env k a ++ stamped env (k + length a) b)%list.
Proof.
  revert k. induction a as [|[m t] a IH]; intros k; cbn [stamped app length].
  - now rewrite Nat.add_0_r.
  - rewrite IH. do 3 f_equal. lia.
Qed.

(** *** The two sinks *)

Lemma sendGmailAlert_run failureData s :
  sendGmailAlert env failureData s =
  let raw := encodedEmail env failureData in
  let s1 := record_call AuthGetClient s in
  let s2 := record_call (GmailSend raw) s1 in
  match auth_getClient env (calls s) with
  | Throw e =>
      (Ok false,
       exec (addLog env ("Failed to send email alert: " ++ JsError.message e)
               "error") s1)
  | Ok _ =>
      match gmail_send env (calls s1) raw with
      | Throw e =>
          (Ok false,
           exec (addLog env ("Failed to send email alert: "
                             ++ JsError.message e) "error") s2)
      | Ok _ =>
          (Ok true,
           exec (addLog env ("Email alert sent for payment failure: "
                             ++ paymentId failureData) "info") s2)
      end
  end.
Proof.
  unfold sendGmailAlert, sendGmailAlert_try, try_catch, bind, await, ret.
  cbv zeta.
  destruct (auth_getClient env (calls s)) as [[]|e]; [|reflexivity].
  destruct (gmail_send env _ _) as [[]|e]; reflexivity.
Qed.

Lemma sendGmailAlert_returns failureData s :
  exists sent s',
    sendGmailAlert env failureData s = (Ok sent, s') /\
    (calls s' = calls s ++ [AuthGetClient] \/
     calls s' =
     calls s ++ [AuthGetClient; GmailSend (encodedEmail env failureData)])%list.
Proof.
  rewrite sendGmailAlert_run. cbv zeta.
  destruct (auth_getClient env (calls s)) as [[]|e].
  - destruct (gmail_send env _ _) as [[]|e];
      eexists; eexists; (split; [reflexivity|]); right;
      rewrite addLog_calls; unfold record_call; cbn [calls];
      now rewrite <- app_assoc.
  - eexists; eexists; (split; [reflexivity|]); left.
    now rewrite addLog_calls.
Qed.

Lemma updateAirtableRecord_run failureData s :
  updateAirtableRecord env failureData s =
  let fields := airtableFields failureData in
  let s1 := record_call (AirtableCreate fields) s in
  match airtable_create env (calls s) fields with
  | Ok record =>
      (Ok (Some record),
       exec (addLog env ("Created Airtable record for failed payment: "
                         ++ AirtableRecord.id record) "info") s1)
  | Throw e =>
      (Ok None,
       exec (addLog env ("Failed to create Airtable record: "
                         ++ JsError.message e) "error") s1)
  end.
Proof.
  unfold updateAirtableRecord, updateAirtableRecord_try, try_catch, bind,
    await, ret.
  cbv zeta.
  destruct (airtable_create env (calls s) _) as [record|e]; reflexivity.
Qed.

Lemma updateAirtableRecord_returns failureData s :
  exists r s',
    updateAirtableRecord env failureData s = (Ok r, s') /\
    calls s' = (calls s ++ [AirtableCreate (airtableFields failureData)])%list.
Proof.
  rewrite updateAirtableRecord_run. cbv zeta.
  destruct (airtable_create env (calls s) _) as [record|e];
    eexists; eexists; (split; [reflexivity|]); now rewrite addLog_calls.
Qed.

(** The fan-out always returns, and has entered both sinks by then. *)
Lemma fanOut_returns failureData s :
  exists s' email_calls,
    fanOut env failureData s = (Ok tt, s') /\
    (email_calls = [] \/
     email_calls = [GmailSend (encodedEmail env failureData)]) /\
    calls s' =
    (calls s ++ AuthGetClient :: email_calls
     ++ [AirtableCreate (airtableFields failureData)])%list.
Proof.
  destruct (sendGmailAlert_returns failureData s) as (sent & s1 & Hmail & Hc1).
  destruct (updateAirtableRecord_returns failureData s1) as (r & s2 & Hrec & Hc2).
  unfold fanOut.
  rewrite (bind_ok _ _ _ _ _ Hmail), (bind_ok _ _ _ _ _ Hrec), addLog_ok.
  destruct Hc1 as [Hc1|Hc1].
  - exists (exec (addLog env ("Successfully processed failed payment: "
                             ++ paymentId failureData) "info") s2), [].
    split; [reflexivity|]. split; [now left|].
    rewrite addLog_calls, Hc2, Hc1, <- app_assoc. reflexivity.
  - exists (exec (addLog env ("Successfully processed failed payment: "
                             ++ paymentId failureData) "info") s2),
      [GmailSend (encodedEmail env failureData)].
    split; [reflexivity|]. split; [now right|].
    rewrite addLog_calls, Hc2, Hc1, <- app_assoc. reflexivity.
Qed.

Lemma new_calls_app s s' cs :
  calls s' = (calls s ++ cs)%list -> new_calls s s' = cs.
Proof.
  intros H. unfold new_calls. rewrite H, skipn_app, skipn_all, Nat.sub_diag.
  reflexivity.
Qed.

Lemma new_calls_same s s' : calls s' = calls s -> new_calls s s' = [].
Proof. intros H. unfold new_calls. rewrite H. apply skipn_all. Qed.

(** *** The pipeline *)

Lemma processFailedPayment_returns paymentIntent s :
  exists s', processFailedPayment env paymentIntent s = (Ok tt, s').
Proof.
  unfold processFailedPayment, try_catch.
  destruct (processFailedPayment_try env paymentIntent s) as [[[]|e] s1].
  - now exists s1.
  - rewrite addLog_ok. eauto.
Qed.

Lemma dispatch_returns event s :
  exists s', dispatch env event s = (Ok tt, s').
Proof.
  unfold dispatch. cbv zeta.
  destruct (String.eqb (Event.type event) "payment_intent.payment_failed").
  - apply processFailedPayment_returns.
  - destruct (String.eqb (Event.type event) "charge.failed");
      [|destruct (String.eqb (Event.type event) "invoice.payment_failed")];
      rewrite addLog_ok; eauto.
Qed.

(** *** Claims about the webhook route and the activity log *)

(** C1. A request to POST /webhook whose payload fails signature
    verification is answered with status 400 and an error message; the
    failure is logged at error severity and nothing else happens: the state
    afterwards is the state before plus that one log entry, so no failure
    record is built and no call reaches the customer lookup, the email sink
    or the record-store sink. *)
Theorem C1_invalid_signature_rejected :
  forall (req : Request) (s : State) (err : JsError.t),
    constructEvent env (body req) (stripe_signature req)
      (STRIPE_WEBHOOK_SECRET env) = Throw err ->
    let entry :=
      {| timestamp := toISOString env (clock s);
         message := "Webhook signature verification failed: "
                    ++ JsError.message err;
         type := "error" |} in
    let s' := exec (post_webhook env req) s in
    post_webhook env req s =
      (Ok {| status := 400;
             payload := SendText ("Webhook Error: " ++ JsError.message err) |},
       {| recentLogs := unshift_capped entry (recentLogs s);
          console :=
            (console s ++
             [consoleLine (timestamp entry) (message entry) "error"])%list;
          clock := S (clock s);
          calls := calls s |}) /\
    hd_error (recentLogs s') = Some entry /\
    new_calls s s' = [] /\
    ~ customer_lookup_made (new_calls s s') /\
    ~ email_sink_invoked (new_calls s s') /\
    ~ record_sink_invoked (new_calls s s').
Proof.
  intros req s err Hsig entry s'.
  assert (Hrun : post_webhook env req s =
                 (Ok {| status := 400;
                        payload := SendText ("Webhook Error: "
                                             ++ JsError.message err) |},
                  exec (addLog env (message entry) "error") s)).
  { unfold post_webhook. cbv zeta. rewrite Hsig. reflexivity. }
  assert (Hs' : s' = exec (addLog env (message entry) "error") s).
  { unfold s', exec at 1. now rewrite Hrun. }
  assert (Hnew : new_calls s s' = []).
  { apply new_calls_same. rewrite Hs'. apply addLog_calls. }
  split; [exact Hrun|].
  split; [rewrite Hs', addLog_recentLogs; apply unshift_capped_head|].
  split; [exact Hnew|].
  rewrite Hnew.
  unfold customer_lookup_made, email_sink_invoked, record_sink_invoked.
  repeat split; [intros [? []] | intros [] | intros [? []]].
Qed.

Lemma post_webhook_verified req s event :
  constructEvent env (body req) (stripe_signature req)
    (STRIPE_WEBHOOK_SECRET env) = Ok event ->
  exists s',
    dispatch env event
      (exec (addLog env ("Received webhook event: " ++ Event.type event)
               "info") s) = (Ok tt, s') /\
    post_webhook env req s =
    (Ok {| status := 200; payload := JsonReceived true |}, s').
Proof.
  intros Hsig.
  unfold post_webhook. cbv zeta. rewrite Hsig.
  rewrite (bind_ok _ _ _ _ _ (addLog_ok _ _ s)).
  destruct (dispatch_returns event
              (exec (addLog env ("Received webhook event: "
                                 ++ Event.type event) "info") s))
    as (s1 & Hd).
  rewrite (bind_ok _ _ _ _ _ Hd). now exists s1.
Qed.

(** C2. Once signature verification has passed, POST /webhook answers 200
    with the body {received: true}, whatever the event type and whatever
    the customer lookup, the email send and the record-store write did. *)
Theorem C2_verified_event_acknowledged :
  forall (req : Request) (s : State) (event : Event.t),
    constructEvent env (body req) (stripe_signature req)
      (STRIPE_WEBHOOK_SECRET env) = Ok event ->
    exists s',
      post_webhook env req s =
      (Ok {| status := 200; payload := JsonReceived true |}, s').
Proof.
  intros req s event Hsig.
  destruct (post_webhook_verified req s event Hsig) as (s' & _ & H).
  now exists s'.
Qed.

(** C7. The activity log holds at most 50 entries, newest first.  Every
    run of appends returns; afterwards the log is the 50 newest of the new
    entries followed by the old ones.  One append puts the new entry at the
    front and, when the log was full, drops its last (oldest) entry.  After
    51 appends the log is exactly the 50 later entries, the most recent at
    position 0, and the first-appended entry is gone. *)
Theorem C7_activity_log_bounded_newest_first :
  forall (entries : list (string * string)) (s : State),
    length (recentLogs s) <= 50 ->
    let s' := exec (addLogs env entries) s in
    addLogs env entries s = (Ok tt, s') /\
    length (recentLogs s') <= 50 /\
    recentLogs s' =
      firstn 50 (rev (stamped env (clock s) entries) ++ recentLogs s)%list /\
    (forall message type,
        recentLogs (exec (addLog env message type) s) =
        {| timestamp := toISOString env (clock s);
           message := message; type := type |}
        :: (if Nat.eqb (length (recentLogs s)) 50
            then removelast (recentLogs s)
            else recentLogs s)) /\
    (forall first middle newest,
        entries = (first :: middle ++ [newest])%list ->
        length middle = 49 ->
        let oldest :=
          {| timestamp := toISOString env (clock s);
             message := fst first; type := snd first |} in
        recentLogs s' =
          {| timestamp := toISOString env (clock s + 50);
             message := fst newest; type := snd newest |}
          :: rev (stamped env (S (clock s)) middle) /\
        (~ In oldest (stamped env (S (clock s)) (middle ++ [newest])%list) ->
         ~ In oldest (recentLogs s'))).
Proof.
  intros entries s Hs s'.
  assert (Hlogs := addLogs_recentLogs entries s Hs). fold s' in Hlogs.
  split; [apply addLogs_ok|].
  split; [rewrite Hlogs; apply firstn_le_length|].
  split; [exact Hlogs|].
  split.
  - intros m t. rewrite addLog_recentLogs, unshift_capped_firstn.
    rewrite firstn_cons. f_equal.
    destruct (Nat.eqb (length (recentLogs s)) 50) eqn:Hfull.
    + apply Nat.eqb_eq in Hfull.
      rewrite removelast_firstn_len, Hfull. reflexivity.
    + apply Nat.eqb_neq in Hfull. apply firstn_all2. lia.
  - intros [m1 t1] middle [m t] -> Hmid oldest.
    assert (Heq : recentLogs s' =
                  rev (stamped env (S (clock s)) (middle ++ [(m, t)])%list)).
    { rewrite Hlogs. cbn [stamped rev]. rewrite <- app_assoc, firstn_app.
      rewrite length_rev, stamped_length, length_app, Hmid.
      cbn [length Nat.add Nat.sub]. rewrite firstn_0, app_nil_r.
      apply firstn_all2.
      rewrite length_rev, stamped_length, length_app, Hmid. cbn. lia. }
    split.
    + rewrite Heq, stamped_app, rev_app_distr, Hmid.
      cbn [stamped rev app fst snd].
      replace (S (clock s) + 49) with (clock s + 50) by lia. reflexivity.
    + intros Hfresh Hin. apply Hfresh. rewrite Heq in Hin.
      now apply in_rev in Hin.
Qed.

(** *** Claims about the failed-payment pipeline *)

Lemma resolveCustomer_absent paymentIntent s :
  Js.truthy (StripeObject.customer paymentIntent) = false ->
  resolveCustomer env paymentIntent s = (Ok unknownCustomer, s).
Proof.
  unfold resolveCustomer. intros H.
  destruct (StripeObject.customer paymentIntent) as [ref|]; [|reflexivity].
  now rewrite H.
Qed.

Lemma resolveCustomer_present paymentIntent ref s :
  StripeObject.customer paymentIntent = Some ref ->
  Js.truthy (Some ref) = true ->
  resolveCustomer env paymentIntent s =
  (customers_retrieve env (calls s) ref,
   record_call (CustomersRetrieve ref) s).
Proof.
  unfold resolveCustomer. intros -> H. now rewrite H.
Qed.

(** The only calls enrichment can make: none, or the one lookup. *)
Lemma resolveCustomer_calls paymentIntent s :
  forall r s1,
    resolveCustomer env paymentIntent s = (r, s1) ->
    (Js.truthy (StripeObject.customer paymentIntent) = false /\
     r = Ok unknownCustomer /\ s1 = s) \/
    (exists ref,
        StripeObject.customer paymentIntent = Some ref /\
        Js.truthy (Some ref) = true /\
        r = customers_retrieve env (calls s) ref /\
        s1 = record_call (CustomersRetrieve ref) s).
Proof.
  intros r s1 H.
  destruct (Js.truthy (StripeObject.customer paymentIntent)) eqn:Ht.
  - right. destruct (StripeObject.customer paymentIntent) as [ref|] eqn:Hc;
      [|discriminate].
    exists ref. rewrite (resolveCustomer_present _ ref s Hc Ht) in H.
    inversion H. auto.
  - left. rewrite (resolveCustomer_absent _ s Ht) in H. inversion H. auto.
Qed.

(** Once enrichment has produced a customer the rest of the [try] block
    is the fan-out on the record built from it. *)
Lemma processFailedPayment_try_enriched paymentIntent s customer s1 :
  resolveCustomer env paymentIntent s = (Ok customer, s1) ->
  let failureData :=
    buildFailureData paymentIntent customer (toISOString env (clock s1)) in
  processFailedPayment_try env paymentIntent s =
  fanOut env failureData
    (exec (addLog env ("Processing failed payment: " ++ paymentId failureData
                       ++ " for " ++ customerEmail failureData) "info")
       (exec (now env) s1)).
Proof.
  intros H. unfold processFailedPayment_try.
  rewrite (bind_ok _ _ _ _ _ H). reflexivity.
Qed.

(** The [try] block throws only when the customer lookup does. *)
Lemma processFailedPayment_try_throws paymentIntent s e s1 :
  processFailedPayment_try env paymentIntent s = (Throw e, s1) ->
  exists ref,
    StripeObject.customer paymentIntent = Some ref /\
    Js.truthy (Some ref) = true /\
    customers_retrieve env (calls s) ref = Throw e /\
    s1 = record_call (CustomersRetrieve ref) s.
Proof.
  intros H.
  destruct (resolveCustomer env paymentIntent s) as [[c|e0] s0] eqn:Hres.
  - rewrite (processFailedPayment_try_enriched _ _ _ _ Hres) in H.
    cbv zeta in H.
    match type of H with
    | fanOut env ?fd ?st = _ =>
        destruct (fanOut_returns fd st) as (s' & cs & Hf & _ & _)
    end.
    rewrite Hf in H. discriminate.
  - unfold processFailedPayment_try in H.
    rewrite (bind_throw _ _ _ _ _ Hres) in H. inversion H; subst.
    destruct (resolveCustomer_calls _ _ _ _ Hres)
      as [(_ & Hr & _)|(ref & Hc & Ht & Hr & Hs)]; [discriminate|].
    exists ref. auto.
Qed.

Lemma processFailedPayment_enriched paymentIntent s customer s1 :
  resolveCustomer env paymentIntent s = (Ok customer, s1) ->
  exists s' email_calls,
    processFailedPayment env paymentIntent s = (Ok tt, s') /\
    (email_calls = [] \/
     email_calls =
     [GmailSend
        (encodedEmail env
           (buildFailureData paymentIntent customer
              (toISOString env (clock s1))))]) /\
    calls s' =
    (calls s1 ++ AuthGetClient :: email_calls
     ++ [AirtableCreate
           (airtableFields
              (buildFailureData paymentIntent customer
                 (toISOString env (clock s1))))])%list.
Proof.
  intros Hres.
  assert (Htry := processFailedPayment_try_enriched _ _ _ _ Hres).
  cbv zeta in Htry.
  match type of Htry with
  | _ = fanOut env ?fd ?st =>
      destruct (fanOut_returns fd st) as (s' & cs & Hf & Hcs & Hc)
  end.
  rewrite Hf in Htry.
  exists s', cs. split; [|split].
  - unfold processFailedPayment. now rewrite (try_catch_ok _ _ _ _ _ Htry).
  - exact Hcs.
  - rewrite Hc. reflexivity.
Qed.

(** After a successful enrichment the run has entered both sinks, and the
    row built from the enriched record has reached the store. *)
Lemma processFailedPayment_enters_sinks paymentIntent s customer s1 :
  resolveCustomer env paymentIntent s = (Ok customer, s1) ->
  let s' := exec (processFailedPayment env paymentIntent) s in
  email_sink_invoked (new_calls s s') /\
  In (AirtableCreate
        (airtableFields
           (buildFailureData paymentIntent customer
              (toISOString env (clock s1)))))
    (new_calls s s').
Proof.
  intros Hres s'.
  destruct (processFailedPayment_enriched _ _ _ _ Hres)
    as (s2 & cs & Hp & _ & Hc).
  assert (Hs' : calls s' = calls s2) by (unfold s', exec; now rewrite Hp).
  unfold email_sink_invoked, new_calls. rewrite Hs', Hc.
  destruct (resolveCustomer_calls _ _ _ _ Hres)
    as [(_ & _ & ->)|(ref & _ & _ & _ & ->)].
  - rewrite skipn_app, skipn_all, Nat.sub_diag. cbn [app skipn]. split.
    + left. reflexivity.
    + right. apply in_or_app. right. left. reflexivity.
  - unfold record_call. cbn [calls clock].
    rewrite <- app_assoc, skipn_app, skipn_all, Nat.sub_diag.
    cbn [app skipn]. split.
    + right. left. reflexivity.
    + right. right. apply in_or_app. right. left. reflexivity.
Qed.

Lemma processFailedPayment_lookup_throws paymentIntent ref e s :
  StripeObject.customer paymentIntent = Some ref ->
  Js.truthy (Some ref) = true ->
  customers_retrieve env (calls s) ref = Throw e ->
  processFailedPayment env paymentIntent s =
  (Ok tt,
   exec (addLog env ("Error processing failed payment: "
                     ++ JsError.message e) "error")
     (record_call (CustomersRetrieve ref) s)).
Proof.
  intros Hc Ht He.
  assert (Hres := resolveCustomer_present _ ref s Hc Ht). rewrite He in Hres.
  unfold processFailedPayment, processFailedPayment_try.
  rewrite (try_catch_throw _ _ _ _ _ (bind_throw _ _ _ _ _ Hres)).
  reflexivity.
Qed.

Lemma lookup_only_no_sink ref :
  ~ email_sink_invoked [CustomersRetrieve ref] /\
  ~ record_sink_invoked [CustomersRetrieve ref].
Proof.
  unfold email_sink_invoked, record_sink_invoked. split.
  - intros [H|[]]. discriminate.
  - intros [fields [H|[]]]. discriminate.
Qed.

(** C3, as amended.  When the lookup of a present customer reference
    throws, the error is caught by the try/catch of processFailedPayment:
    an error-severity entry carrying the message is appended, the lookup is
    the only call made for the event, so neither the email sink nor the
    record-store sink is invoked, and the function returns normally. *)
Theorem C3_lookup_failure_caught_sinks_skipped :
  forall (paymentIntent : StripeObject.t) (ref : string) (e : JsError.t)
         (s : State),
    StripeObject.customer paymentIntent = Some ref ->
    Js.truthy (Some ref) = true ->
    customers_retrieve env (calls s) ref = Throw e ->
    let s' := exec (processFailedPayment env paymentIntent) s in
    eval (processFailedPayment env paymentIntent) s = Ok tt /\
    new_calls s s' = [CustomersRetrieve ref] /\
    ~ email_sink_invoked (new_calls s s') /\
    ~ record_sink_invoked (new_calls s s') /\
    recentLogs s' =
      unshift_capped
        {| timestamp := toISOString env (clock s);
           message := "Error processing failed payment: "
                      ++ JsError.message e;
           type := "error" |}
        (recentLogs s).
Proof.
  intros paymentIntent ref e s Hc Ht He s'.
  assert (Hrun := processFailedPayment_lookup_throws _ _ _ _ Hc Ht He).
  assert (Hnew : new_calls s s' = [CustomersRetrieve ref]).
  { apply new_calls_app. unfold s', exec at 1. rewrite Hrun. reflexivity. }
  split; [unfold eval; now rewrite Hrun|].
  split; [exact Hnew|].
  rewrite Hnew.
  split; [apply lookup_only_no_sink|].
  split; [apply lookup_only_no_sink|].
  unfold s', exec at 1. rewrite Hrun. reflexivity.
Qed.

(** C9. processFailedPayment always returns normally.  Whenever its try
    block throws, the error is the customer lookup's, the catch appends an
    error-severity entry with its message, both sinks have been skipped,
    and a verified payment_intent.payment_failed event carrying that
    payment intent is still answered 200 {received: true}. *)
Theorem C9_pipeline_errors_caught :
  forall (paymentIntent : StripeObject.t) (s : State),
    (exists s', processFailedPayment env paymentIntent s = (Ok tt, s')) /\
    (forall e s1,
        processFailedPayment_try env paymentIntent s = (Throw e, s1) ->
        let s' := exec (processFailedPayment env paymentIntent) s in
        processFailedPayment env paymentIntent s =
          (Ok tt,
           exec (addLog env ("Error processing failed payment: "
                             ++ JsError.message e) "error") s1) /\
        hd_error (recentLogs s') =
          Some {| timestamp := toISOString env (clock s1);
                  message := "Error processing failed payment: "
                             ++ JsError.message e;
                  type := "error" |} /\
        ~ email_sink_invoked (new_calls s s') /\
        ~ record_sink_invoked (new_calls s s')) /\
    (forall req s0,
        constructEvent env (body req) (stripe_signature req)
          (STRIPE_WEBHOOK_SECRET env) =
          Ok {| Event.type := "payment_intent.payment_failed";
                Event.data_object := paymentIntent |} ->
        eval (post_webhook env req) s0 =
          Ok {| status := 200; payload := JsonReceived true |}).
Proof.
  intros paymentIntent s.
  split; [apply processFailedPayment_returns|].
  split.
  - intros e s1 Hthrow s'.
    assert (Hrun : processFailedPayment env paymentIntent s =
                   (Ok tt,
                    exec (addLog env ("Error processing failed payment: "
                                      ++ JsError.message e) "error") s1)).
    { unfold processFailedPayment.
      now rewrite (try_catch_throw _ _ _ _ _ Hthrow). }
    destruct (processFailedPayment_try_throws _ _ _ _ Hthrow)
      as (ref & Hc & Ht & He & Hs1).
    assert (Hnew : new_calls s s' = [CustomersRetrieve ref]).
    { apply new_calls_app. unfold s', exec at 1. rewrite Hrun, Hs1.
      reflexivity. }
    split; [exact Hrun|].
    split.
    + unfold s', exec at 1. rewrite Hrun. cbn [snd].
      rewrite addLog_recentLogs. apply unshift_capped_head.
    + rewrite Hnew. apply lookup_only_no_sink.
  - intros req s0 Hsig.
    destruct (post_webhook_verified req s0 _ Hsig) as (s' & _ & H).
    unfold eval. now rewrite H.
Qed.

(** C4, as amended.  Which branch runs after verification is a function of
    the type tag alone.  payment_intent.payment_failed runs
    processFailedPayment on the event object: both sinks are entered when the
    object names no customer or the customer lookup succeeds, and when the
    lookup throws the lookup is the only call made and neither sink is
    entered.  charge.failed and invoice.payment_failed do one info-level
    addLog and make no call; every other type does one warning-level addLog
    and makes no call. *)
Theorem C4_dispatch_by_event_type :
  forall (event : Event.t) (s : State),
    let tag := Event.type event in
    let object := Event.data_object event in
    let s' := exec (dispatch env event) s in
    (tag = "payment_intent.payment_failed" ->
     dispatch env event s = processFailedPayment env object s /\
     (forall customer s1,
         resolveCustomer env object s = (Ok customer, s1) ->
         email_sink_invoked (new_calls s s') /\
         record_sink_invoked (new_calls s s')) /\
     (Js.truthy (StripeObject.customer object) = false ->
      email_sink_invoked (new_calls s s') /\
      record_sink_invoked (new_calls s s')) /\
     (forall ref customer,
         StripeObject.customer object = Some ref ->
         Js.truthy (Some ref) = true ->
         customers_retrieve env (calls s) ref = Ok customer ->
         email_sink_invoked (new_calls s s') /\
         record_sink_invoked (new_calls s s')) /\
     (forall ref e,
         StripeObject.customer object = Some ref ->
         Js.truthy (Some ref) = true ->
         customers_retrieve env (calls s) ref = Throw e ->
         new_calls s s' = [CustomersRetrieve ref] /\
         ~ email_sink_invoked (new_calls s s') /\
         ~ record_sink_invoked (new_calls s s'))) /\
    (tag = "charge.failed" ->
     dispatch env event s =
       addLog env ("Charge failed: " ++ StripeObject.id object) "info" s /\
     new_calls s s' = []) /\
    (tag = "invoice.payment_failed" ->
     dispatch env event s =
       addLog env ("Invoice payment failed: " ++ StripeObject.id object)
         "info" s /\
     new_calls s s' = []) /\
    (tag <> "payment_intent.payment_failed" ->
     tag <> "charge.failed" ->
     tag <> "invoice.payment_failed" ->
     dispatch env event s =
       addLog env ("Unhandled event type: " ++ tag) "warning" s /\
     new_calls s s' = []).
Proof.
  intros event s tag object s'.
  assert (Hlog : forall m t,
             dispatch env event s = addLog env m t s -> new_calls s s' = []).
  { intros m t H. apply new_calls_same. unfold s', exec. now rewrite H. }
  split; [|split; [|split]].
  - intros Htag.
    assert (Hd : dispatch env event s = processFailedPayment env object s).
    { unfold dispatch. fold tag. now rewrite Htag. }
    assert (Hsinks : forall customer s1,
               resolveCustomer env object s = (Ok customer, s1) ->
               email_sink_invoked (new_calls s s') /\
               record_sink_invoked (new_calls s s')).
    { intros customer s1 Hres.
      destruct (processFailedPayment_enters_sinks _ _ _ _ Hres)
        as (Hmail & Hrow).
      unfold s', exec. rewrite Hd.
      split; [exact Hmail|]. eexists. exact Hrow. }
    split; [exact Hd|]. split; [exact Hsinks|]. split; [|split].
    + intros Habsent.
      exact (Hsinks _ _ (resolveCustomer_absent object s Habsent)).
    + intros ref customer Href Htruthy Hfound.
      assert (Hres := resolveCustomer_present object ref s Href Htruthy).
      rewrite Hfound in Hres. exact (Hsinks _ _ Hres).
    + intros ref e Href Htruthy Hthrown.
      assert (Hrun := processFailedPayment_lookup_throws object ref e s
                        Href Htruthy Hthrown).
      assert (Hnew : new_calls s s' = [CustomersRetrieve ref]).
      { apply new_calls_app. unfold s', exec at 1. rewrite Hd, Hrun.
        reflexivity. }
      split; [exact Hnew|]. rewrite Hnew. apply lookup_only_no_sink.
  - intros Htag.
    assert (Hd : dispatch env event s =
                 addLog env ("Charge failed: " ++ StripeObject.id object)
                   "info" s).
    { unfold dispatch. fold tag. now rewrite Htag. }
    split; [exact Hd|exact (Hlog _ _ Hd)].
  - intros Htag.
    assert (Hd : dispatch env event s =
                 addLog env ("Invoice payment failed: "
                             ++ StripeObject.id object) "info" s).
    { unfold dispatch. fold tag. now rewrite Htag. }
    split; [exact Hd|exact (Hlog _ _ Hd)].
  - intros Hpi Hcharge Hinvoice.
    apply String.eqb_neq in Hpi, Hcharge, Hinvoice.
    assert (Hd : dispatch env event s =
                 addLog env ("Unhandled event type: " ++ tag) "warning" s).
    { unfold dispatch. fold tag. now rewrite Hpi, Hcharge, Hinvoice. }
    split; [exact Hd|exact (Hlog _ _ Hd)].
Qed.

(** *** Claims about the sinks and the failure record *)

(** C5, as amended.  The record-store writer issues exactly one create,
    for a row whose Amount is the minor-unit amount divided by 100 (2999
    gives 29.99), whose Currency is the currency upper-cased (usd gives
    USD) and whose Status is the literal Failed.  It never throws: it
    returns the created record object, whose id is the row's identifier,
    when the create succeeds, and null, after an error-severity log entry,
    when it fails. *)
Theorem C5_record_store_row_and_result :
  forall (failureData : FailureRecord) (s : State),
    let fields := airtableFields failureData in
    let s' := exec (updateAirtableRecord env failureData) s in
    Amount fields = Js.div100 (amount failureData) /\
    Currency fields = Js.toUpperCase (currency failureData) /\
    Status fields = "Failed" /\
    Js.div100 2999 = 29.99%float /\
    Js.toUpperCase "usd" = "USD" /\
    new_calls s s' = [AirtableCreate fields] /\
    (exists r, eval (updateAirtableRecord env failureData) s = Ok r) /\
    (forall record,
        airtable_create env (calls s) fields = Ok record ->
        eval (updateAirtableRecord env failureData) s = Ok (Some record)) /\
    (forall e,
        airtable_create env (calls s) fields = Throw e ->
        eval (updateAirtableRecord env failureData) s = Ok None /\
        hd_error (recentLogs s') =
          Some {| timestamp := toISOString env (clock s);
                  message := "Failed to create Airtable record: "
                             ++ JsError.message e;
                  type := "error" |}).
Proof.
  intros failureData s fields s'.
  destruct (updateAirtableRecord_returns failureData s) as (r & s1 & Hrun & Hc).
  do 5 (split; [reflexivity|]).
  split.
  { apply new_calls_app. unfold s', exec. now rewrite Hrun. }
  split.
  { exists r. unfold eval. now rewrite Hrun. }
  split.
  - intros record Hok. unfold eval.
    rewrite updateAirtableRecord_run. cbv zeta. fold fields. now rewrite Hok.
  - intros e Hfail. unfold s', eval, exec.
    rewrite updateAirtableRecord_run. cbv zeta. fold fields. rewrite Hfail.
    cbn [fst snd]. split; [reflexivity|].
    rewrite addLog_recentLogs. apply unshift_capped_head.
Qed.

(** C6. The email dispatcher always returns a boolean and never throws.
    Whenever its try block throws (the auth handshake or the send), the
    catch appends an error-severity entry carrying the underlying message
    and the result is false.  Consequently the fan-out always goes on to
    the record-store create for the same failure record, whatever the
    email send did. *)
Theorem C6_email_dispatcher_never_throws :
  forall (failureData : FailureRecord) (s : State),
    (exists sent s', sendGmailAlert env failureData s = (Ok sent, s')) /\
    (forall e s1,
        sendGmailAlert_try env failureData s = (Throw e, s1) ->
        let s' := exec (sendGmailAlert env failureData) s in
        eval (sendGmailAlert env failureData) s = Ok false /\
        hd_error (recentLogs s') =
          Some {| timestamp := toISOString env (clock s1);
                  message := "Failed to send email alert: "
                             ++ JsError.message e;
                  type := "error" |}) /\
    (forall e,
        auth_getClient env (calls s) = Throw e ->
        sendGmailAlert_try env failureData s =
          (Throw e, record_call AuthGetClient s)) /\
    (forall e,
        auth_getClient env (calls s) = Ok tt ->
        gmail_send env (calls s ++ [AuthGetClient])%list
          (encodedEmail env failureData) = Throw e ->
        sendGmailAlert_try env failureData s =
          (Throw e,
           record_call (GmailSend (encodedEmail env failureData))
             (record_call AuthGetClient s))) /\
    (exists s',
        fanOut env failureData s = (Ok tt, s') /\
        In (AirtableCreate (airtableFields failureData)) (new_calls s s')).
Proof.
  intros failureData s.
  split.
  { destruct (sendGmailAlert_returns failureData s) as (b & s' & H & _).
    now exists b, s'. }
  split.
  { intros e s1 Hthrow s'.
    assert (Hrun : sendGmailAlert env failureData s =
                   (Ok false,
                    exec (addLog env ("Failed to send email alert: "
                                      ++ JsError.message e) "error") s1)).
    { unfold sendGmailAlert.
      now rewrite (try_catch_throw _ _ _ _ _ Hthrow). }
    unfold s', eval, exec. rewrite Hrun. cbn [fst snd].
    split; [reflexivity|].
    rewrite addLog_recentLogs. apply unshift_capped_head. }
  split.
  { intros e Hauth. unfold sendGmailAlert_try, bind, await.
    now rewrite Hauth. }
  split.
  { intros e Hauth Hsend. unfold sendGmailAlert_try, bind, await.
    rewrite Hauth. cbv zeta. unfold record_call at 1. cbn [calls].
    now rewrite Hsend. }
  destruct (fanOut_returns failureData s) as (s' & cs & Hf & _ & Hc).
  exists s'. split; [exact Hf|].
  rewrite (new_calls_app s s' _ Hc).
  right. apply in_or_app. right. left. reflexivity.
Qed.

Lemma or_default_falsy v d : Js.truthy v = false -> Js.or_default v d = d.
Proof.
  unfold Js.or_default. destruct v as [x|]; [|reflexivity]. now intros ->.
Qed.

Lemma or_default_truthy x d : x <> "" -> Js.or_default (Some x) d = x.
Proof.
  intros Hx. unfold Js.or_default, Js.truthy.
  apply String.eqb_neq in Hx. now rewrite Hx.
Qed.

(** C8. With an absent customer reference, enrichment makes no call and
    leaves the state untouched, the failure record carries the sentinels
    Unknown and Unknown Customer, and the whole pipeline performs no
    customer lookup while the row with the sentinels reaches the record
    store.  For a resolved customer, customerEmail is the email or else
    Unknown, and customerName is the name, or else the customer's email, or
    else Unknown Customer. *)
Theorem C8_customer_sentinels_and_fallbacks :
  forall (paymentIntent : StripeObject.t) (s : State),
    (Js.truthy (StripeObject.customer paymentIntent) = false ->
     let s' := exec (processFailedPayment env paymentIntent) s in
     let failureData :=
       buildFailureData paymentIntent unknownCustomer
         (toISOString env (clock s)) in
     resolveCustomer env paymentIntent s = (Ok unknownCustomer, s) /\
     customerEmail failureData = "Unknown" /\
     customerName failureData = "Unknown Customer" /\
     ~ customer_lookup_made (new_calls s s') /\
     In (AirtableCreate (airtableFields failureData)) (new_calls s s')) /\
    (forall (customer : Customer.t) (failedAt : string),
        let failureData :=
          buildFailureData paymentIntent customer failedAt in
        (Js.truthy (Customer.email customer) = false ->
         customerEmail failureData = "Unknown") /\
        (forall email,
            Customer.email customer = Some email -> email <> "" ->
            customerEmail failureData = email) /\
        (forall name,
            Customer.name customer = Some name -> name <> "" ->
            customerName failureData = name) /\
        (forall email,
            Js.truthy (Customer.name customer) = false ->
            Customer.email customer = Some email -> email <> "" ->
            customerName failureData = email) /\
        (Js.truthy (Customer.name customer) = false ->
         Js.truthy (Customer.email customer) = false ->
         customerName failureData = "Unknown Customer")).
Proof.
  intros paymentIntent s. split.
  - intros Habsent s' failureData.
    assert (Hres := resolveCustomer_absent paymentIntent s Habsent).
    destruct (processFailedPayment_enriched _ _ _ _ Hres)
      as (s2 & cs & Hp & Hcs & Hc).
    assert (Hnew : new_calls s s' =
                   (AuthGetClient :: cs
                    ++ [AirtableCreate (airtableFields failureData)])%list).
    { apply new_calls_app. unfold s', exec. now rewrite Hp. }
    split; [exact Hres|].
    split; [reflexivity|].
    split; [reflexivity|].
    rewrite Hnew. split.
    + intros (ref & [Hin|Hin]); [discriminate|].
      apply in_app_or in Hin.
      destruct Hin as [Hin|[Hin|[]]]; [|discriminate].
      destruct Hcs as [->| ->]; [destruct Hin|].
      destruct Hin as [Hin|[]]. discriminate.
    + right. apply in_or_app. right. left. reflexivity.
  - intros customer failedAt failureData.
    unfold failureData, buildFailureData. cbn [customerEmail customerName].
    split; [apply or_default_falsy|].
    split; [intros email -> Hne; now apply or_default_truthy|].
    split.
    { intros name Hn Hne. unfold Js.or_else. rewrite Hn.
      assert (Ht : Js.truthy (Some name) = true).
      { unfold Js.truthy. apply String.eqb_neq in Hne. now rewrite Hne. }
      rewrite Ht. now apply or_default_truthy. }
    split.
    { intros email Hn He Hne. unfold Js.or_else. rewrite Hn, He.
      now apply or_default_truthy. }
    intros Hn He. unfold Js.or_else. rewrite Hn.
    now apply or_default_falsy.
Qed.

(** *** The rendered email *)

Lemma append_assoc (a b c : string) : (a ++ b) ++ c = a ++ b ++ c.
Proof. induction a as [|x a IH]; cbn [append]; [reflexivity|now rewrite IH]. Qed.

Lemma embeds_skip x a s : embeds x s -> embeds x (a ++ s).
Proof.
  intros (before & after & ->). exists (a ++ before), after.
  now rewrite append_assoc.
Qed.

Lemma embeds_here a b c d e rest :
  embeds (a ++ b ++ c ++ d ++ e) (a ++ b ++ c ++ d ++ e ++ rest).
Proof.
  exists EmptyString, rest. cbn [append]. now rewrite !append_assoc.
Qed.

Lemma embeds_trans x y s : embeds x y -> embeds y s -> embeds x s.
Proof.
  intros (b1 & a1 & ->) (b2 & a2 & ->).
  exists (b2 ++ b1), (a1 ++ a2). now rewrite !append_assoc.
Qed.

(** Walk down a concatenation until the embedded pieces start. *)
Ltac find_embedded :=
  first [ apply embeds_here | apply embeds_skip; find_embedded ].

(** C10. The Amount row of the rendered email shows the amount as the
    integer it is, in minor units, next to the upper-cased currency; only
    the record-store row divides by 100.  For 2999 usd the email shows
    2999 USD and the record store receives 29.99. *)
Theorem C10_email_amount_in_minor_units :
  forall (failureData : FailureRecord),
    embeds ("    <tr><td><strong>Amount:</strong></td><td>"
            ++ Js.string_of_number (amount failureData) ++ " "
            ++ Js.toUpperCase (currency failureData) ++ "</td></tr>")
      (emailContent env failureData) /\
    Amount (airtableFields failureData) = Js.div100 (amount failureData) /\
    (amount failureData = 2999%Z ->
     currency failureData = "usd" ->
     embeds "<td>2999 USD</td>" (emailContent env failureData) /\
     Amount (airtableFields failureData) = 29.99%float).
Proof.
  intros failureData.
  assert (Hrow : embeds ("    <tr><td><strong>Amount:</strong></td><td>"
                         ++ Js.string_of_number (amount failureData) ++ " "
                         ++ Js.toUpperCase (currency failureData)
                         ++ "</td></tr>")
                   (emailContent env failureData)).
  { unfold emailContent.
    find_embedded. }
  split; [exact Hrow|].
  split; [reflexivity|].
  intros Hamount Hcurrency. split.
  - refine (embeds_trans _ _ _ _ Hrow).
    rewrite Hamount, Hcurrency.
    exists "    <tr><td><strong>Amount:</strong></td>", "</tr>".
    reflexivity.
  - unfold airtableFields. cbn [Amount]. rewrite Hamount. reflexivity.
Qed.

End Properties.

(** ** The claims on concrete runs *)

Module Runs.

Import Examples.

Definition no_match : JsError.t :=
  {| JsError.message :=
       "No signatures found matching the expected signature for payload." |}.

Definition no_customer : JsError.t :=
  {| JsError.message := "No such customer: cus_1" |}.

Definition customer_event : string := "payment_intent.payment_failed cus_1".

(** C1 on a forged request against a working world. *)
Lemma C1_witness_forged_request :
  constructEvent all_up (body (forged customer_event))
    (stripe_signature (forged customer_event))
    (STRIPE_WEBHOOK_SECRET all_up) = Throw no_match /\
  eval (post_webhook all_up (forged customer_event)) initial_state =
    Ok {| status := 400;
          payload := SendText ("Webhook Error: " ++ JsError.message no_match) |} /\
  calls (exec (post_webhook all_up (forged customer_event)) initial_state) = [].
Proof.
  split; [reflexivity|].
  pose proof (C1_invalid_signature_rejected all_up (forged customer_event)
                initial_state no_match eq_refl) as H.
  cbv zeta in H. destruct H as (Hrun & _).
  unfold eval, exec. rewrite Hrun. split; reflexivity.
Defined.

(** C2 on a verified event while the email and record-store services are
    both down. *)
Lemma C2_witness_sinks_down :
  constructEvent (world true false false) (body (signed customer_event))
    (stripe_signature (signed customer_event))
    (STRIPE_WEBHOOK_SECRET (world true false false)) =
    Ok (parse customer_event) /\
  eval (post_webhook (world true false false) (signed customer_event))
    initial_state =
    Ok {| status := 200; payload := JsonReceived true |}.
Proof.
  split; [reflexivity|].
  destruct (C2_verified_event_acknowledged (world true false false)
              (signed customer_event) initial_state _ eq_refl) as (s' & H).
  unfold eval. rewrite H. reflexivity.
Defined.

(** C3 as stated fails: the lookup throws, the event is acknowledged, and
    the lookup is the only call that was made. *)
Lemma C3_counterexample_lookup_failure_drops_notification :
  customers_retrieve (world false true true) (calls initial_state) "cus_1"
    = Throw no_customer /\
  calls (exec (processFailedPayment (world false true true)
                 (intent (Some "cus_1"))) initial_state)
    = [CustomersRetrieve "cus_1"] /\
  ~ lookup_failure_isolated (world false true true) (intent (Some "cus_1"))
      initial_state.
Proof.
  split; [reflexivity|]. split; [reflexivity|].
  intros H.
  destruct (H "cus_1" no_customer eq_refl eq_refl eq_refl) as [[Hmail|[]] _].
  discriminate Hmail.
Defined.

(** C3 as amended, on the same run. *)
Lemma C3_witness_lookup_failure :
  customers_retrieve (world false true true) (calls initial_state) "cus_1"
    = Throw no_customer /\
  new_calls initial_state
    (exec (processFailedPayment (world false true true)
             (intent (Some "cus_1"))) initial_state)
    = [CustomersRetrieve "cus_1"] /\
  map type
    (recentLogs (exec (processFailedPayment (world false true true)
                         (intent (Some "cus_1"))) initial_state))
    = ["error"].
Proof.
  split; [reflexivity|].
  pose proof (C3_lookup_failure_caught_sinks_skipped (world false true true)
                (intent (Some "cus_1")) "cus_1" no_customer initial_state
                eq_refl eq_refl eq_refl) as H.
  cbv zeta in H. destruct H as (_ & Hnew & _ & _ & Hlog).
  split; [exact Hnew|]. rewrite Hlog. reflexivity.
Defined.

(** C4 as stated fails: a verified payment_intent.payment_failed event whose
    customer lookup throws is dispatched without reaching either sink. *)
Lemma C4_counterexample_failed_intent_without_sinks :
  Event.type (parse customer_event) = "payment_intent.payment_failed" /\
  customers_retrieve (world false true true) (calls initial_state) "cus_1"
    = Throw no_customer /\
  calls (exec (dispatch (world false true true) (parse customer_event))
           initial_state)
    = [CustomersRetrieve "cus_1"] /\
  ~ failed_intent_reaches_both_sinks (world false true true)
      (parse customer_event) initial_state.
Proof.
  split; [reflexivity|]. split; [reflexivity|]. split; [reflexivity|].
  intros H. destruct (H eq_refl) as [[Hmail|[]] _]. discriminate Hmail.
Defined.

(** C4 as amended, on an event type the switch does not name and on a failed
    intent whose customer lookup throws. *)
Lemma C4_witness_unhandled_type :
  map type
    (recentLogs (exec (dispatch all_up (parse "customer.created"))
                   initial_state)) = ["warning"] /\
  new_calls initial_state
    (exec (dispatch all_up (parse "customer.created")) initial_state) = [] /\
  new_calls initial_state
    (exec (dispatch (world false true true) (parse customer_event))
       initial_state) = [CustomersRetrieve "cus_1"].
Proof.
  pose proof (C4_dispatch_by_event_type all_up (parse "customer.created")
                initial_state) as H.
  cbv zeta in H. destruct H as (_ & _ & _ & H).
  destruct H as (Hrun & Hnew); [discriminate..|].
  split; [unfold exec; rewrite Hrun; reflexivity|]. split; [exact Hnew|].
  pose proof (C4_dispatch_by_event_type (world false true true)
                (parse customer_event) initial_state) as Hpi.
  cbv zeta in Hpi. destruct Hpi as (Hpi & _).
  destruct (Hpi eq_refl) as (_ & _ & _ & _ & Hthrown).
  exact (proj1 (Hthrown "cus_1" no_customer eq_refl eq_refl eq_refl)).
Defined.

(** C5 as stated fails on the return value: the caller holds the record
    object, not the identifier string. *)
Lemma C5_counterexample_returns_record_object :
  airtable_create all_up (calls initial_state) (airtableFields testData)
    = Ok {| AirtableRecord.id := "rec1";
            AirtableRecord.fields := airtableFields testData |} /\
  eval (updateAirtableRecord all_up testData) initial_state
    = Ok (Some {| AirtableRecord.id := "rec1";
                  AirtableRecord.fields := airtableFields testData |}) /\
  returned (Some {| AirtableRecord.id := "rec1";
                    AirtableRecord.fields := airtableFields testData |})
    <> identifier_or_null
         (airtable_create all_up (calls initial_state)
            (airtableFields testData)).
Proof.
  split; [reflexivity|]. split; [reflexivity|]. discriminate.
Defined.

(** C5 as amended, on the test record with the store up. *)
Lemma C5_witness_test_record :
  Amount (airtableFields testData) = 29.99%float /\
  Currency (airtableFields testData) = "USD" /\
  eval (updateAirtableRecord all_up testData) initial_state
    = Ok (Some {| AirtableRecord.id := "rec1";
                  AirtableRecord.fields := airtableFields testData |}).
Proof.
  pose proof (C5_record_store_row_and_result all_up testData initial_state)
    as H.
  cbv zeta in H. destruct H as (_ & _ & _ & _ & _ & _ & _ & Hok & _).
  split; [reflexivity|]. split; [reflexivity|].
  apply Hok. reflexivity.
Defined.

(** C6 with the auth handshake failing: false, and the create still made. *)
Lemma C6_witness_auth_down :
  eval (sendGmailAlert (world true false true) testData) initial_state
    = Ok false /\
  In (AirtableCreate (airtableFields testData))
    (calls (exec (fanOut (world true false true) testData) initial_state)).
Proof.
  pose proof (C6_email_dispatcher_never_throws (world true false true)
                testData initial_state) as H.
  destruct H as (_ & Hcatch & Hauth & _ & _).
  split.
  - exact (proj1 (Hcatch _ _ (Hauth _ eq_refl))).
  - right. left. reflexivity.
Defined.

(** C7 on 51 numbered appends to the empty log. *)
Lemma C7_witness_fifty_one_appends :
  length (recentLogs initial_state) <= 50 /\
  length (recentLogs (exec (addLogs all_up (numbered 51)) initial_state))
    = 50 /\
  hd_error
    (map message
       (recentLogs (exec (addLogs all_up (numbered 51)) initial_state)))
    = Some "m50" /\
  ~ In "m0"
      (map message
         (recentLogs (exec (addLogs all_up (numbered 51)) initial_state))).
Proof.
  assert (H0 : length (recentLogs initial_state) <= 50) by (cbn; lia).
  split; [exact H0|].
  pose proof (C7_activity_log_bounded_newest_first all_up (numbered 51)
                initial_state H0) as H.
  cbv zeta in H. destruct H as (_ & _ & Hlogs & _).
  rewrite Hlogs.
  split; [reflexivity|]. split; [reflexivity|].
  vm_compute. intros H. repeat (destruct H as [H|H]; [discriminate H|]).
  exact H.
Defined.

(** C8 on an intent without a customer. *)
Lemma C8_witness_no_customer :
  Js.truthy (StripeObject.customer (intent None)) = false /\
  resolveCustomer all_up (intent None) initial_state
    = (Ok unknownCustomer, initial_state) /\
  customerEmail (buildFailureData (intent None) unknownCustomer "T0")
    = "Unknown" /\
  customerName (buildFailureData (intent None) unknownCustomer "T0")
    = "Unknown Customer".
Proof.
  split; [reflexivity|].
  pose proof (C8_customer_sentinels_and_fallbacks all_up (intent None)
                initial_state) as H.
  destruct H as (Habsent & _). specialize (Habsent eq_refl).
  cbv zeta in Habsent. destruct Habsent as (Hres & Hmail & Hname & _).
  split; [exact Hres|]. split; [exact Hmail|exact Hname].
Defined.

(** C9 on a verified event whose customer lookup throws. *)
Lemma C9_witness_lookup_throws :
  processFailedPayment_try (world false true true) (intent (Some "cus_1"))
    initial_state
    = (Throw no_customer, record_call (CustomersRetrieve "cus_1") initial_state) /\
  eval (processFailedPayment (world false true true) (intent (Some "cus_1")))
    initial_state = Ok tt /\
  eval (post_webhook (world false true true) (signed customer_event))
    initial_state = Ok {| status := 200; payload := JsonReceived true |}.
Proof.
  split; [reflexivity|].
  pose proof (C9_pipeline_errors_caught (world false true true)
                (intent (Some "cus_1")) initial_state) as H.
  destruct H as (_ & Hcatch & Hack).
  split.
  - specialize (Hcatch no_customer _ eq_refl). cbv zeta in Hcatch.
    destruct Hcatch as (Hrun & _). unfold eval. rewrite Hrun. reflexivity.
  - apply Hack. reflexivity.
Defined.

(** C10 on the test record: 2999 in the email, 29.99 in the row. *)
Lemma C10_witness_test_record :
  amount testData = 2999%Z /\
  currency testData = "usd" /\
  embeds "<td>2999 USD</td>" (emailContent all_up testData) /\
  Amount (airtableFields testData) = 29.99%float.
Proof.
  split; [reflexivity|]. split; [reflexivity|].
  pose proof (C10_email_amount_in_minor_units all_up testData) as H.
  destruct H as (_ & _ & H). exact (H eq_refl eq_refl).
Defined.

End Runs.

(** ** Properties of the rest of the program *)

Section RouteProperties.

Variable env : Env.
Variable dep : Deployment.

(** *** The log, the console and the pages that read them *)

Lemma addLog_console message type s :
  console (exec (addLog env message type) s) =
  (console s
   ++ [consoleLine (toISOString env (clock s)) message type])%list.
Proof. reflexivity. Qed.

Lemma addLogs_recentLogs_cons m t rest s :
  recentLogs (exec (addLogs env ((m, t) :: rest)) s) =
  firstn 50
    (rev (stamped env (clock s) ((m, t) :: rest)) ++ recentLogs s)%list.
Proof.
  rewrite addLogs_step, addLogs_recentLogs
    by (rewrite addLog_recentLogs; apply unshift_capped_length).
  rewrite addLog_clock, addLog_recentLogs, unshift_capped_firstn.
  cbn [stamped rev]. rewrite <- app_assoc. cbn [app].
  rewrite !firstn_app. f_equal.
  rewrite firstn_firstn. f_equal. lia.
Qed.

Lemma console_prefix entries : forall s,
  console (exec (addLogs env entries) s) =
  (console s ++ map line_of (stamped env (clock s) entries))%list.
Proof.
  induction entries as [|[m t] rest IH]; intros s.
  - cbn [stamped map]. rewrite app_nil_r. reflexivity.
  - rewrite addLogs_step, IH, addLog_console, addLog_clock.
    cbn [stamped map]. rewrite <- app_assoc. reflexivity.
Qed.

(** X1. console.log is never truncated: a run of appends adds one line per
    append, in order, each of the form [timestamp] TYPE: message with the
    type upper-cased, while the in-memory log keeps 50 entries at most. *)
Theorem console_keeps_every_line :
  forall (entries : list (string * string)) (s : State),
    let s' := exec (addLogs env entries) s in
    console s' =
      (console s ++ map line_of (stamped env (clock s) entries))%list /\
    length (console s') = length (console s) + length entries /\
    (entries <> [] -> length (recentLogs s') <= 50).
Proof.
  intros entries s s'.
  assert (Hc := console_prefix entries s). fold s' in Hc.
  split; [exact Hc|]. split.
  - rewrite Hc, length_app, length_map, stamped_length. reflexivity.
  - intros Hne. destruct entries as [|[m t] rest]; [contradiction|].
    unfold s'. rewrite addLogs_recentLogs_cons. apply firstn_le_length.
Qed.

(** X2. GET /logs answers 200 with the newest entries first, 20 at most, and
    the number of entries retained.  After any run of appends to a log within
    its bound, the page shows the 20 newest of the new entries followed by
    the old ones, and total is the number of entries capped at 50. *)
Theorem get_logs_shows_newest_twenty :
  forall (entries : list (string * string)) (s : State),
    length (recentLogs s) <= 50 ->
    let page := json (get_logs (exec (addLogs env entries) s)) in
    code (get_logs (exec (addLogs env entries) s)) = 200 /\
    LogsPage.logs page =
      firstn 20 (rev (stamped env (clock s) entries) ++ recentLogs s)%list /\
    length (LogsPage.logs page) = Nat.min 20 (LogsPage.total page) /\
    LogsPage.total page =
      Nat.min 50 (length entries + length (recentLogs s)).
Proof.
  intros entries s Hs page.
  assert (Hlogs := addLogs_recentLogs env entries s Hs).
  unfold page, get_logs, Js.slice0. cbn [json code LogsPage.logs LogsPage.total].
  split; [reflexivity|].
  split.
  { rewrite Hlogs, firstn_firstn. reflexivity. }
  split.
  { apply length_firstn. }
  rewrite Hlogs, length_firstn, length_app, length_rev, stamped_length.
  reflexivity.
Qed.

(** X3. GET / reports as lastActivity the timestamp of the newest log entry:
    the placeholder No activity yet while the log is empty, and the stamp of
    an append right after it. *)
Theorem get_root_reports_last_activity :
  forall (s : State) (message type : string),
    (recentLogs s = [] ->
     StatusPage.lastActivity (json (get_root s)) = "No activity yet") /\
    (toISOString env (clock s) <> "" ->
     StatusPage.lastActivity
       (json (get_root (exec (addLog env message type) s)))
     = toISOString env (clock s)) /\
    code (get_root s) = 200.
Proof.
  intros s m t. split; [|split].
  - intros Hempty. unfold get_root. cbn [json StatusPage.lastActivity].
    rewrite Hempty. reflexivity.
  - intros Hstamp. unfold get_root. cbn [json StatusPage.lastActivity].
    rewrite addLog_recentLogs, unshift_capped_head. cbn [option_map timestamp].
    now apply or_default_truthy.
  - reflexivity.
Qed.

(** *** The email dispatcher *)

(** X4. sendGmailAlert returns true exactly when the auth handshake and the
    send both succeeded.  When the handshake fails no send is attempted; when
    it succeeds exactly one send is made, of the URL-safe encoding of the
    rendered message.  Either way one log entry is appended. *)
Theorem sendGmailAlert_true_iff_sent :
  forall (failureData : FailureRecord) (s : State),
    let s' := exec (sendGmailAlert env failureData) s in
    let raw := encodedEmail env failureData in
    let handshake := auth_getClient env (calls s) in
    let sending := gmail_send env (calls s ++ [AuthGetClient])%list raw in
    (eval (sendGmailAlert env failureData) s = Ok true <->
     handshake = Ok tt /\ sending = Ok tt) /\
    (forall e, handshake = Throw e -> new_calls s s' = [AuthGetClient]) /\
    (handshake = Ok tt -> new_calls s s' = [AuthGetClient; GmailSend raw]) /\
    clock s' = S (clock s) /\
    exists entry, recentLogs s' = unshift_capped entry (recentLogs s).
Proof.
  intros failureData s s' raw handshake sending.
  unfold s', eval, exec. rewrite sendGmailAlert_run. cbv zeta.
  fold raw. fold handshake.
  change (calls (record_call AuthGetClient s))
    with (calls s ++ [AuthGetClient])%list.
  fold sending.
  destruct handshake as [[]|e1] eqn:Hh.
  - destruct sending as [[]|e2] eqn:Hs; cbn [fst snd].
    + split; [split; [auto|reflexivity]|].
      split; [discriminate|].
      split; [intros _; apply new_calls_app; rewrite addLog_calls;
              unfold record_call; cbn [calls]; now rewrite <- app_assoc|].
      split; [reflexivity|]. eexists. rewrite addLog_recentLogs. reflexivity.
    + split; [split; [discriminate|intros [_ H]; discriminate]|].
      split; [discriminate|].
      split; [intros _; apply new_calls_app; rewrite addLog_calls;
              unfold record_call; cbn [calls]; now rewrite <- app_assoc|].
      split; [reflexivity|]. eexists. rewrite addLog_recentLogs. reflexivity.
  - cbn [fst snd].
    split; [split; [discriminate|intros [H _]; discriminate]|].
    split; [intros e _; apply new_calls_app; now rewrite addLog_calls|].
    split; [discriminate|].
    split; [reflexivity|]. eexists. rewrite addLog_recentLogs. reflexivity.
Qed.

(** *** The pipeline, call by call *)

Lemma addLog_bounded message type s :
  length (recentLogs (exec (addLog env message type) s)) <= 50.
Proof. rewrite addLog_recentLogs. apply unshift_capped_length. Qed.

Lemma sendGmailAlert_clock failureData s :
  exists sent s',
    sendGmailAlert env failureData s = (Ok sent, s') /\
    clock s' = S (clock s) /\
    length (recentLogs s') <= 50.
Proof.
  rewrite sendGmailAlert_run. cbv zeta.
  destruct (auth_getClient env (calls s)) as [[]|e];
    [destruct (gmail_send env _ _) as [[]|e]|];
    eexists; eexists; (split; [reflexivity|]);
    (split; [reflexivity|apply addLog_bounded]).
Qed.

Lemma updateAirtableRecord_clock failureData s :
  exists r s',
    updateAirtableRecord env failureData s = (Ok r, s') /\
    clock s' = S (clock s) /\
    length (recentLogs s') <= 50.
Proof.
  rewrite updateAirtableRecord_run. cbv zeta.
  destruct (airtable_create env (calls s) _) as [record|e];
    eexists; eexists; (split; [reflexivity|]);
    (split; [reflexivity|apply addLog_bounded]).
Qed.

(** The fan-out ends with the closing log line, two clock readings after
    it started. *)
Lemma fanOut_final failureData s :
  exists s2,
    fanOut env failureData s =
    (Ok tt,
     exec (addLog env ("Successfully processed failed payment: "
                       ++ paymentId failureData) "info") s2) /\
    clock s2 = S (S (clock s)).
Proof.
  destruct (sendGmailAlert_clock failureData s) as (b & s1 & Hm & Hc1 & _).
  destruct (updateAirtableRecord_clock failureData s1) as (r & s2 & Hr & Hc2 & _).
  exists s2. unfold fanOut.
  rewrite (bind_ok _ _ _ _ _ Hm), (bind_ok _ _ _ _ _ Hr).
  split; [reflexivity|]. now rewrite Hc2, Hc1.
Qed.

Lemma processFailedPayment_bounded paymentIntent s :
  length (recentLogs (exec (processFailedPayment env paymentIntent) s)) <= 50.
Proof.
  unfold exec, processFailedPayment, try_catch.
  destruct (resolveCustomer env paymentIntent s) as [[c|e] s1] eqn:Hres.
  - rewrite (processFailedPayment_try_enriched env _ _ _ _ Hres). cbv zeta.
    match goal with
    | |- context [fanOut env ?fd ?st] =>
        destruct (fanOut_final fd st) as (s2 & Hf & _)
    end.
    rewrite Hf. apply addLog_bounded.
  - unfold processFailedPayment_try.
    rewrite (bind_throw _ _ _ _ _ Hres). apply addLog_bounded.
Qed.




(** X6. Once enrichment has produced a customer, the newest log entry after
    the pipeline is the info line Successfully processed failed payment with
    the payment id, stamped four clock readings after enrichment, whatever
    the email send and the record-store write did. *)
Theorem pipeline_logs_success_whatever_the_sinks_did :
  forall (paymentIntent : StripeObject.t) (s : State) (customer : Customer.t)
         (s1 : State),
    resolveCustomer env paymentIntent s = (Ok customer, s1) ->
    let s' := exec (processFailedPayment env paymentIntent) s in
    hd_error (recentLogs s') =
      Some {| timestamp := toISOString env (clock s1 + 4);
              message := "Successfully processed failed payment: "
                         ++ StripeObject.id paymentIntent;
              type := "info" |} /\
    clock s' = clock s1 + 5.
Proof.
  intros paymentIntent s customer s1 Hres s'.
  assert (Htry := processFailedPayment_try_enriched env _ _ _ _ Hres).
  cbv zeta in Htry.
  match type of Htry with
  | _ = fanOut env ?fd ?st => destruct (fanOut_final fd st) as (s2 & Hf & Hc)
  end.
  rewrite Hf in Htry.
  unfold s', exec, processFailedPayment.
  rewrite (try_catch_ok _ _ _ _ _ Htry). cbn [snd].
  rewrite addLog_recentLogs, unshift_capped_head, addLog_clock, Hc.
  change (clock (exec (addLog env _ _) (exec (now env) s1)))
    with (S (S (clock s1))).
  cbn [buildFailureData paymentId].
  replace (S (S (S (S (clock s1))))) with (clock s1 + 4) by lia.
  split; [reflexivity|lia].
Qed.

(** X7. The failure reason of the record is the message of the payment
    intent's last payment error, and the placeholder Unknown error when the
    error is absent or its message is absent or empty; the payment id, the
    amount and the currency are the payment intent's, and the same reason
    reaches the record-store row. *)
Theorem failure_reason_falls_back :
  forall (paymentIntent : StripeObject.t) (customer : Customer.t)
         (failedAt : string),
    let failureData := buildFailureData paymentIntent customer failedAt in
    (StripeObject.last_payment_error paymentIntent = None ->
     failureReason failureData = "Unknown error") /\
    (forall e,
        StripeObject.last_payment_error paymentIntent = Some e ->
        Js.truthy (LastPaymentError.message e) = false ->
        failureReason failureData = "Unknown error") /\
    (forall e reason,
        StripeObject.last_payment_error paymentIntent = Some e ->
        LastPaymentError.message e = Some reason -> reason <> "" ->
        failureReason failureData = reason) /\
    Failure_Reason (airtableFields failureData) = failureReason failureData /\
    Payment_ID (airtableFields failureData) = StripeObject.id paymentIntent /\
    amount failureData = StripeObject.amount paymentIntent /\
    currency failureData = StripeObject.currency paymentIntent.
Proof.
  intros paymentIntent customer failedAt failureData.
  unfold failureData, buildFailureData, last_payment_error_message.
  cbn [failureReason amount currency airtableFields Failure_Reason Payment_ID
       paymentId].
  split; [intros ->; reflexivity|].
  split; [intros e -> Hm; now apply or_default_falsy|].
  split; [intros e reason -> -> Hne; now apply or_default_truthy|].
  repeat split.
Qed.

(** *** The manual test route *)

Lemma post_test_run s sent s1 r s2 :
  let s0 :=
    exec (now env)
      (exec (dateNow dep) (exec (addLog env "Manual test initiated" "info") s)) in
  let testData :=
    buildTestData env (date_now dep (S (clock s)))
      (toISOString env (S (S (clock s)))) in
  sendGmailAlert env testData s0 = (Ok sent, s1) ->
  updateAirtableRecord env testData s1 = (Ok r, s2) ->
  post_test env dep s =
  (Ok {| code := 200;
         json :=
           ManualTest.completed true "Test completed"
             {| ManualTest.emailSent := sent;
                ManualTest.airtableRecord := option_map AirtableRecord.id r |} |},
   s2).
Proof.
  intros s0 testData Hm Hr.
  unfold post_test, post_test_try.
  apply try_catch_ok.
  rewrite (bind_ok _ _ _ _ _ (addLog_ok env _ _ s)).
  unfold bind at 1. unfold dateNow at 1.
  unfold bind at 1. unfold now at 1. cbv zeta.
  change (sendGmailAlert env testData s0 = (Ok sent, s1)) in Hm.
  match goal with
  | |- bind (sendGmailAlert env ?td) _ ?st = _ =>
      change td with testData; change st with s0
  end.
  rewrite (bind_ok _ _ _ _ _ Hm), (bind_ok _ _ _ _ _ Hr). reflexivity.
Qed.

(** X8. POST /test always answers 200 with success true and Test completed,
    for every behaviour of the email and record-store services: emailSent is
    what sendGmailAlert returned and airtableRecord is the id of the created
    record, or null when the create failed.  The 500 branch is never taken. *)
Theorem post_test_always_completes :
  forall (s : State),
    let s0 :=
      exec (now env)
        (exec (dateNow dep)
           (exec (addLog env "Manual test initiated" "info") s)) in
    let testData :=
      buildTestData env (date_now dep (S (clock s)))
        (toISOString env (S (S (clock s)))) in
    exists sent airtableRecord,
      eval (post_test env dep) s =
        Ok {| code := 200;
              json :=
                ManualTest.completed true "Test completed"
                  {| ManualTest.emailSent := sent;
                     ManualTest.airtableRecord := airtableRecord |} |} /\
      eval (sendGmailAlert env testData) s0 = Ok sent /\
      (forall record,
          airtable_create env
            (calls (exec (sendGmailAlert env testData) s0))
            (airtableFields testData) = Ok record ->
          airtableRecord = Some (AirtableRecord.id record)) /\
      (forall e,
          airtable_create env
            (calls (exec (sendGmailAlert env testData) s0))
            (airtableFields testData) = Throw e ->
          airtableRecord = None).
Proof.
  intros s s0 testData.
  destruct (sendGmailAlert_clock testData s0) as (sent & s1 & Hm & _).
  destruct (updateAirtableRecord_clock testData s1) as (r & s2 & Hr & _).
  exists sent, (option_map AirtableRecord.id r).
  split.
  { unfold eval. now rewrite (post_test_run s sent s1 r s2 Hm Hr). }
  split.
  { unfold eval. now rewrite Hm. }
  unfold exec. rewrite Hm. cbn [snd].
  rewrite updateAirtableRecord_run in Hr. cbv zeta in Hr.
  split.
  - intros record Hok. rewrite Hok in Hr. inversion Hr. reflexivity.
  - intros e Hfail. rewrite Hfail in Hr. inversion Hr. reflexivity.
Qed.

(** X9. A manual test bypasses ingestion and enrichment: it makes no
    customer lookup, only the auth handshake, at most one send and exactly
    one create.  The row it creates has the payment id test_ followed by the
    epoch milliseconds, the amount 29.99, the currency USD, and as customer
    email the configured alert address or else test@example.com. *)
Theorem post_test_bypasses_enrichment :
  forall (s : State),
    let s' := exec (post_test env dep) s in
    let testData :=
      buildTestData env (date_now dep (S (clock s)))
        (toISOString env (S (S (clock s)))) in
    let row := airtableFields testData in
    (new_calls s s' = [AuthGetClient; AirtableCreate row] \/
     new_calls s s' =
       [AuthGetClient; GmailSend (encodedEmail env testData);
        AirtableCreate row]) /\
    Payment_ID row
      = "test_" ++ Js.string_of_number (date_now dep (S (clock s))) /\
    Amount row = 29.99%float /\
    Currency row = "USD" /\
    Customer_Email row = Js.or_default (ALERT_EMAIL env) "test@example.com" /\
    Failed_At row = toISOString env (S (S (clock s))).
Proof.
  intros s s' testData row.
  set (s0 := exec (now env)
               (exec (dateNow dep)
                  (exec (addLog env "Manual test initiated" "info") s))).
  destruct (sendGmailAlert_returns env testData s0) as (sent & s1 & Hm & Hc1).
  destruct (updateAirtableRecord_returns env testData s1)
    as (r & s2 & Hr & Hc2).
  assert (Hs' : s' = s2).
  { unfold s', exec. now rewrite (post_test_run s sent s1 r s2 Hm Hr). }
  split; [|repeat split].
  rewrite Hs'. change (calls s0) with (calls s) in Hc1.
  destruct Hc1 as [Hc1|Hc1]; [left|right];
    apply new_calls_app; rewrite Hc2, Hc1, <- app_assoc; reflexivity.
Qed.

(** *** The bound of the log across the routes *)

Lemma dispatch_bounded event s :
  length (recentLogs (exec (dispatch env event) s)) <= 50.
Proof.
  unfold dispatch. cbv zeta.
  destruct (String.eqb (Event.type event) "payment_intent.payment_failed").
  - apply processFailedPayment_bounded.
  - destruct (String.eqb (Event.type event) "charge.failed");
      [|destruct (String.eqb (Event.type event) "invoice.payment_failed")];
      apply addLog_bounded.
Qed.

(** X10. Whatever the log held before, it holds at most 50 entries after a
    request to POST /webhook, verified or not, and after a request to
    POST /test. *)
Theorem routes_leave_log_within_bound :
  forall (req : Request) (s : State),
    length (recentLogs (exec (post_webhook env req) s)) <= 50 /\
    length (recentLogs (exec (post_test env dep) s)) <= 50.
Proof.
  intros req s. split.
  - unfold exec, post_webhook. cbv zeta.
    destruct (constructEvent env _ _ _) as [event|err].
    + rewrite (bind_ok _ _ _ _ _ (addLog_ok env _ _ s)).
      destruct (dispatch_returns env event
                  (exec (addLog env ("Received webhook event: "
                                     ++ Event.type event) "info") s))
        as (s1 & Hd).
      rewrite (bind_ok _ _ _ _ _ Hd). cbn [snd ret].
      replace s1 with (exec (dispatch env event)
                         (exec (addLog env ("Received webhook event: "
                                            ++ Event.type event) "info") s))
        by (unfold exec at 1; now rewrite Hd).
      apply dispatch_bounded.
    + apply addLog_bounded.
  - set (s0 := exec (now env)
                 (exec (dateNow dep)
                    (exec (addLog env "Manual test initiated" "info") s))).
    match goal with
    | |- context [post_test env dep] =>
        destruct (sendGmailAlert_clock
                    (buildTestData env (date_now dep (S (clock s)))
                       (toISOString env (S (S (clock s))))) s0)
          as (sent & s1 & Hm & _)
    end.
    match type of Hm with
    | sendGmailAlert env ?td _ = _ =>
        destruct (updateAirtableRecord_clock td s1) as (r & s2 & Hr & _ & Hb)
    end.
    unfold exec. rewrite (post_test_run s sent s1 r s2 Hm Hr). exact Hb.
Qed.

(** *** The transport encoding of the email *)

Lemma b64_in_alphabet n : (n < 64)%N -> is_base64 (Js.b64 n) = true.
Proof.
  intros Hn.
  assert (Hk : exists k, k < 64 /\ n = N.of_nat k).
  { exists (N.to_nat n). split; lia. }
  destruct Hk as (k & Hk & ->).
  do 64 (destruct k as [|k]; [reflexivity|]). lia.
Qed.

Lemma every_app p a b : every p (a ++ b) = every p a && every p b.
Proof.
  induction a as [|c a IH]; cbn [append every]; [reflexivity|].
  now rewrite IH, andb_assoc.
Qed.

(** The encoder emits alphabet characters followed by at most two [=]. *)
(** Linear arithmetic with divisions and remainders by constants. *)
Ltac div_lia := zify; Z.to_euclidean_division_equations; lia.

Lemma base64_bytes_shape l :
  exists body pad,
    Js.base64_bytes l = body ++ pad /\
    every is_base64 body = true /\
    (pad = EmptyString \/ pad = "=" \/ pad = "==").
Proof.
  assert (H : forall l,
             (exists body pad,
                 Js.base64_bytes l = body ++ pad /\
                 every is_base64 body = true /\
                 (pad = EmptyString \/ pad = "=" \/ pad = "==")) /\
             (forall a, exists body pad,
                 Js.base64_bytes (a :: l) = body ++ pad /\
                 every is_base64 body = true /\
                 (pad = EmptyString \/ pad = "=" \/ pad = "==")) /\
             (forall a b, exists body pad,
                 Js.base64_bytes (a :: b :: l) = body ++ pad /\
                 every is_base64 body = true /\
                 (pad = EmptyString \/ pad = "=" \/ pad = "=="))).
  { clear l. induction l as [|c l (IH0 & IH1 & IH2)].
    - split; [|split].
      + exists EmptyString, EmptyString. auto.
      + intros a. pose proof (N_ascii_bounded a) as Ha.
        eexists (String _ (String _ EmptyString)), "==".
        split; [reflexivity|]. split; [|auto].
        cbn [every]. rewrite !b64_in_alphabet; [reflexivity|div_lia..].
      + intros a b.
        pose proof (N_ascii_bounded a) as Ha.
        pose proof (N_ascii_bounded b) as Hb.
        eexists (String _ (String _ (String _ EmptyString))), "=".
        split; [reflexivity|]. split; [|auto].
        cbn [every]. rewrite !b64_in_alphabet; [reflexivity|div_lia..].
    - split; [apply IH1|]. split; [intros a; apply IH2|].
      intros a b.
      pose proof (N_ascii_bounded a) as Ha.
      pose proof (N_ascii_bounded b) as Hb.
      pose proof (N_ascii_bounded c) as Hc.
      destruct IH0 as (body & pad & Heq & Hbody & Hpad).
      eexists (String _ (String _ (String _ (String _ body)))), pad.
      split; [|split; [|exact Hpad]].
      + cbn [Js.base64_bytes append]. rewrite Heq. reflexivity.
      + cbn [every]. rewrite !b64_in_alphabet, Hbody; [reflexivity|div_lia..]. }
  apply H.
Qed.

Lemma replace_all_app c d a b :
  Js.replace_all c d (a ++ b) = Js.replace_all c d a ++ Js.replace_all c d b.
Proof.
  induction a as [|x a IH]; cbn [append Js.replace_all]; [reflexivity|].
  now rewrite IH.
Qed.

Lemma url_safe_after_replace c :
  is_base64 c = true ->
  url_safe
    (if Ascii.eqb (if Ascii.eqb c "+"%char then "-"%char else c) "/"%char
     then "_"%char
     else if Ascii.eqb c "+"%char then "-"%char else c) = true.
Proof.
  destruct c as [[] [] [] [] [] [] [] []]; vm_compute; congruence.
Qed.

Lemma url_safe_not_padding c :
  url_safe c = true -> Ascii.eqb c "="%char = false.
Proof.
  destruct c as [[] [] [] [] [] [] [] []]; vm_compute; congruence.
Qed.

Lemma every_url_safe_replaced body :
  every is_base64 body = true ->
  every url_safe
    (Js.replace_all "/"%char "_"%char (Js.replace_all "+"%char "-"%char body))
  = true.
Proof.
  induction body as [|c body IH]; cbn [Js.replace_all every]; [reflexivity|].
  intros H. apply andb_prop in H. destruct H as [Hc Hbody].
  now rewrite url_safe_after_replace, IH.
Qed.

Lemma strip_trailing_eq_padding body pad :
  every url_safe body = true ->
  pad = EmptyString \/ pad = "=" \/ pad = "==" ->
  Js.strip_trailing_eq (body ++ pad) = body.
Proof.
  intros Hbody Hpad.
  induction body as [|c body IH].
  - destruct Hpad as [->|[->| ->]]; reflexivity.
  - cbn [every] in Hbody. apply andb_prop in Hbody.
    destruct Hbody as [Hc Hbody].
    cbn [append Js.strip_trailing_eq]. rewrite (IH Hbody).
    destruct body; [|reflexivity].
    now rewrite (url_safe_not_padding c Hc).
Qed.

(** X11. The raw message handed to the Gmail API is URL-safe base64 without
    padding: whatever the failure record and the configuration, every
    character of it is a letter, a digit, a hyphen or an underscore. *)
Theorem encodedEmail_is_url_safe :
  forall (failureData : FailureRecord),
    every url_safe (encodedEmail env failureData) = true /\
    every (fun c => negb (Ascii.eqb c "+"%char || Ascii.eqb c "/"%char
                          || Ascii.eqb c "="%char))
      (encodedEmail env failureData) = true.
Proof.
  intros failureData. unfold encodedEmail, Js.base64.
  destruct (base64_bytes_shape
              (list_ascii_of_string (emailContent env failureData)))
    as (body & pad & -> & Hbody & Hpad).
  rewrite !replace_all_app.
  assert (Hsame : Js.replace_all "/"%char "_"%char
                    (Js.replace_all "+"%char "-"%char pad) = pad).
  { destruct Hpad as [->|[->| ->]]; reflexivity. }
  rewrite Hsame.
  rewrite (strip_trailing_eq_padding _ pad
             (every_url_safe_replaced body Hbody) Hpad).
  assert (Hsafe := every_url_safe_replaced body Hbody).
  split; [exact Hsafe|].
  revert Hsafe.
  generalize (Js.replace_all "/"%char "_"%char
                (Js.replace_all "+"%char "-"%char body)).
  intros s. induction s as [|c s IH]; cbn [every]; [reflexivity|].
  intros H. apply andb_prop in H. destruct H as [Hc Hs].
  rewrite (IH Hs), andb_true_r. clear IH Hs.
  revert Hc. destruct c as [[] [] [] [] [] [] [] []]; vm_compute; congruence.
Qed.

(** *** Startup and the health check *)

Lemma skipn_length_app {A : Type} (l more : list A) :
  skipn (length l) (l ++ more)%list = more.
Proof. rewrite skipn_app, skipn_all, Nat.sub_diag. reflexivity. Qed.

Lemma lift_addLog_bind {B : Type} message type (k : unit -> Task B) sv :
  bindT (lift (addLog env message type)) k sv =
  k tt {| process := exec (addLog env message type) (process sv);
          probes := probes sv |}.
Proof. reflexivity. Qed.

Lemma lift_addLog message type sv :
  lift (addLog env message type) sv =
  (Ok tt,
   {| process := exec (addLog env message type) (process sv);
      probes := probes sv |}).
Proof. reflexivity. Qed.

Lemma addLogs_calls entries : forall s,
  calls (exec (addLogs env entries) s) = calls s.
Proof.
  induction entries as [|[m t] rest IH]; intros s; [reflexivity|].
  now rewrite addLogs_step, IH, addLog_calls.
Qed.

Lemma addLogs_clock entries : forall s,
  clock (exec (addLogs env entries) s) = clock s + length entries.
Proof.
  induction entries as [|[m t] rest IH]; intros s.
  - cbn [length]. rewrite Nat.add_0_r. reflexivity.
  - rewrite addLogs_step, IH, addLog_clock. cbn [length]. lia.
Qed.

Lemma addLogs_nil s : exec (addLogs env []) s = s.
Proof. reflexivity. Qed.

Lemma ensureFailedPaymentsTable_run sv :
  ensureFailedPaymentsTable env dep sv =
  match failed_payments_firstPage dep (calls (process sv)) (probes sv) with
  | Ok _ =>
      (Ok true,
       {| process :=
            exec (addLog env "Failed Payments table already exists" "info")
              (process sv);
          probes := (probes sv ++ [FailedPaymentsFirstPage 1])%list |})
  | Throw _ =>
      (Ok false,
       {| process := exec (addLogs env schema_help) (process sv);
          probes := (probes sv ++ [FailedPaymentsFirstPage 1])%list |})
  end.
Proof.
  unfold ensureFailedPaymentsTable, try_catchT.
  unfold bindT at 1. unfold probe at 1.
  destruct (failed_payments_firstPage dep (calls (process sv)) (probes sv))
    as [[]|e].
  - rewrite lift_addLog_bind. reflexivity.
  - rewrite !lift_addLog_bind. unfold retT. cbn [process probes].
    unfold schema_help. rewrite !addLogs_step, addLogs_nil. reflexivity.
Qed.

(** X12. The startup check never throws and never writes to the store: it
    makes the one first-page read and no other call.  It returns true after
    one info entry when the read succeeds; when the read fails it returns
    false after ten entries, a warning followed by nine info lines that
    describe the table to create. *)
Theorem ensureFailedPaymentsTable_is_advisory :
  forall (sv : Server),
    let read :=
      failed_payments_firstPage dep (calls (process sv)) (probes sv) in
    let sv' := snd (ensureFailedPaymentsTable env dep sv) in
    calls (process sv') = calls (process sv) /\
    probes sv' = (probes sv ++ [FailedPaymentsFirstPage 1])%list /\
    (read = Ok tt ->
     fst (ensureFailedPaymentsTable env dep sv) = Ok true /\
     recentLogs (process sv') =
       unshift_capped
         {| timestamp := toISOString env (clock (process sv));
            message := "Failed Payments table already exists";
            type := "info" |}
         (recentLogs (process sv))) /\
    (forall e,
        read = Throw e ->
        fst (ensureFailedPaymentsTable env dep sv) = Ok false /\
        map type (firstn 10 (recentLogs (process sv'))) =
          ["info"; "info"; "info"; "info"; "info"; "info"; "info"; "info";
           "info"; "warning"] /\
        nth_error (recentLogs (process sv')) 9 =
          Some {| timestamp := toISOString env (clock (process sv));
                  message := "Failed Payments table needs to be created manually in Airtable";
                  type := "warning" |} /\
        clock (process sv') = clock (process sv) + 10).
Proof.
  intros sv read sv'. unfold sv'. rewrite ensureFailedPaymentsTable_run.
  fold read.
  destruct read as [[]|e0] eqn:Hread; cbn [fst snd process probes].
  - split; [reflexivity|]. split; [reflexivity|].
    split; [intros _; split; reflexivity|discriminate].
  - split; [reflexivity|]. split; [reflexivity|].
    split; [discriminate|]. intros e _.
    split; [reflexivity|].
    unfold schema_help at 1 2. rewrite addLogs_recentLogs_cons.
    cbn [stamped rev app firstn map type nth_error].
    split; [reflexivity|]. split; [reflexivity|].
    rewrite Nat.add_comm. reflexivity.
Qed.

(** X13. The listen callback always completes, whatever the table check
    found: its first console line announces the port, PORT or else 3000, the
    newest log entry afterwards is Ready to monitor payment failures, the log
    is within its bound, and no call other than the one first-page read has
    been made. *)
Theorem on_listen_never_blocks :
  forall (sv : Server),
    exists sv',
      on_listen env dep sv = (Ok tt, sv') /\
      option_map message (hd_error (recentLogs (process sv')))
        = Some "Ready to monitor payment failures" /\
      hd_error (skipn (length (console (process sv))) (console (process sv')))
        = Some (consoleLine (toISOString env (clock (process sv)))
                  ("Stripe Payment Monitor started on port "
                   ++ Js.or_default (PORT dep) "3000") "info") /\
      length (recentLogs (process sv')) <= 50 /\
      calls (process sv') = calls (process sv) /\
      probes sv' = (probes sv ++ [FailedPaymentsFirstPage 1])%list.
Proof.
  intros sv. unfold on_listen.
  rewrite lift_addLog_bind. unfold bindT at 1.
  rewrite ensureFailedPaymentsTable_run.
  cbn [process probes]. rewrite addLog_calls.
  destruct (failed_payments_firstPage dep (calls (process sv)) (probes sv))
    as [[]|e]; rewrite lift_addLog; eexists; (split; [reflexivity|]);
    cbn [process probes];
    (split; [rewrite addLog_recentLogs, unshift_capped_head; reflexivity|]);
    (split; [|split; [apply addLog_bounded|]]).
  - rewrite !addLog_console, <- !app_assoc, skipn_length_app. reflexivity.
  - rewrite !addLog_calls. split; reflexivity.
  - rewrite addLog_console, console_prefix, addLog_console, <- !app_assoc,
      skipn_length_app.
    reflexivity.
  - rewrite addLog_calls, addLogs_calls, addLog_calls. split; reflexivity.
Qed.

Lemma get_health_run sv :
  let p := process sv in
  let timestamp := toISOString env (clock p) in
  let both := (probes sv ++ [CustomersList 1; FailedPaymentsFirstPage 1])%list in
  get_health env dep sv =
  match customers_list dep (calls p) (probes sv) with
  | Throw e =>
      (Ok {| code := 500;
             json := Health.unhealthy "unhealthy" (JsError.message e)
                       timestamp |},
       {| process := exec (now env) p;
          probes := (probes sv ++ [CustomersList 1])%list |})
  | Ok _ =>
      match failed_payments_firstPage dep (calls p)
              (probes sv ++ [CustomersList 1])%list with
      | Throw e =>
          (Ok {| code := 500;
                 json := Health.unhealthy "unhealthy" (JsError.message e)
                           timestamp |},
           {| process := exec (now env) p; probes := both |})
      | Ok _ =>
          match auth_getClient env (calls p) with
          | Throw e =>
              (Ok {| code := 500;
                     json := Health.unhealthy "unhealthy" (JsError.message e)
                               timestamp |},
               {| process := exec (now env) (record_call AuthGetClient p);
                  probes := both |})
          | Ok _ =>
              (Ok {| code := 200;
                     json :=
                       Health.healthy "healthy" timestamp
                         {| Health.stripe := "connected";
                            Health.airtable := "connected";
                            Health.gmail := "connected" |} |},
               {| process := exec (now env) (record_call AuthGetClient p);
                  probes := both |})
          end
      end
  end.
Proof.
  cbv zeta.
  unfold get_health, get_health_try, try_catchT, bindT, probe, lift, retT.
  cbn [process probes].
  destruct (customers_list dep (calls (process sv)) (probes sv)) as [[]|e];
    [|reflexivity].
  destruct (failed_payments_firstPage dep (calls (process sv)) _) as [[]|e];
    [|rewrite <- app_assoc; reflexivity].
  unfold eval, exec, await. cbn [fst snd].
  destruct (auth_getClient env (calls (process sv))) as [[]|e];
    rewrite <- app_assoc; reflexivity.
Qed.

(** X14. GET /health never throws.  It answers 200 healthy, with the three
    services reported connected, exactly when the Stripe list, the table read
    and the auth handshake all succeed; otherwise it answers 500 unhealthy
    with the message of the first of the three that failed. *)
Theorem get_health_reports_first_failure :
  forall (sv : Server),
    let p := process sv in
    let timestamp := toISOString env (clock p) in
    let listing := customers_list dep (calls p) (probes sv) in
    let reading :=
      failed_payments_firstPage dep (calls p)
        (probes sv ++ [CustomersList 1])%list in
    let handshake := auth_getClient env (calls p) in
    let unhealthy e :=
      Ok {| code := 500;
            json := Health.unhealthy "unhealthy" (JsError.message e)
                      timestamp |} in
    (exists reply, fst (get_health env dep sv) = Ok reply) /\
    (fst (get_health env dep sv) =
       Ok {| code := 200;
             json :=
               Health.healthy "healthy" timestamp
                 {| Health.stripe := "connected";
                    Health.airtable := "connected";
                    Health.gmail := "connected" |} |}
     <-> listing = Ok tt /\ reading = Ok tt /\ handshake = Ok tt) /\
    (forall e, listing = Throw e ->
               fst (get_health env dep sv) = unhealthy e) /\
    (forall e, listing = Ok tt -> reading = Throw e ->
               fst (get_health env dep sv) = unhealthy e) /\
    (forall e, listing = Ok tt -> reading = Ok tt -> handshake = Throw e ->
               fst (get_health env dep sv) = unhealthy e).
Proof.
  intros sv p timestamp listing reading handshake unhealthy.
  rewrite (get_health_run sv). cbv zeta.
  fold p. fold timestamp. fold listing. fold reading. fold handshake.
  destruct listing as [[]|e1];
    [destruct reading as [[]|e2]; [destruct handshake as [[]|e3]|]|];
    cbn [fst].
  - split; [eauto|]. split; [tauto|]. repeat split; intros; discriminate.
  - split; [eauto|].
    split; [split; [discriminate|intros (_ & _ & H); discriminate]|].
    split; [discriminate|]. split; [discriminate|].
    intros e _ _ H. inversion H. reflexivity.
  - split; [eauto|].
    split; [split; [discriminate|intros (_ & H & _); discriminate]|].
    split; [discriminate|]. split; [|discriminate].
    intros e _ H. inversion H. reflexivity.
  - split; [eauto|].
    split; [split; [discriminate|intros (H & _); discriminate]|].
    split; [|split; discriminate].
    intros e H. inversion H. reflexivity.
Qed.

(** X15. GET /health stops at the first failure and is read-only for the
    log: when the Stripe list fails neither the table nor the auth service
    is contacted, when the table read fails the auth service is not
    contacted, and in every case the log and the console are left as they
    were and the clock is read once. *)
Theorem get_health_stops_at_first_failure :
  forall (sv : Server),
    let p := process sv in
    let sv' := snd (get_health env dep sv) in
    let listing := customers_list dep (calls p) (probes sv) in
    let reading :=
      failed_payments_firstPage dep (calls p)
        (probes sv ++ [CustomersList 1])%list in
    recentLogs (process sv') = recentLogs p /\
    console (process sv') = console p /\
    clock (process sv') = S (clock p) /\
    (forall e, listing = Throw e ->
               probes sv' = (probes sv ++ [CustomersList 1])%list /\
               calls (process sv') = calls p) /\
    (forall e, listing = Ok tt -> reading = Throw e ->
               probes sv' =
                 (probes sv
                  ++ [CustomersList 1; FailedPaymentsFirstPage 1])%list /\
               calls (process sv') = calls p) /\
    (listing = Ok tt -> reading = Ok tt ->
     probes sv' =
       (probes sv ++ [CustomersList 1; FailedPaymentsFirstPage 1])%list /\
     calls (process sv') = (calls p ++ [AuthGetClient])%list).
Proof.
  intros sv p sv' listing reading. unfold sv'.
  rewrite (get_health_run sv). cbv zeta.
  fold p. fold listing. fold reading.
  destruct listing as [[]|e1];
    [destruct reading as [[]|e2];
     [destruct (auth_getClient env (calls p)) as [[]|e3]|]|];
    cbn [snd process probes];
    (split; [reflexivity|]); (split; [reflexivity|]);
    (split; [reflexivity|]);
    (split; [try discriminate; intros; split; reflexivity|]);
    (split; [try discriminate; intros; split; reflexivity|]);
    try discriminate; intros; split; reflexivity.
Qed.

End RouteProperties.

(** ** The further properties on concrete runs *)

Module RouteRuns.

Import Examples Deployments.

Definition ada : Customer.t :=
  {| Customer.email := Some "ada@example.com"; Customer.name := Some "Ada" |}.

Definition after_lookup : State :=
  record_call (CustomersRetrieve "cus_1") initial_state.

(** X2 after 30 appends to the empty log. *)
Lemma get_logs_witness_thirty_appends :
  length (recentLogs initial_state) <= 50 /\
  length (LogsPage.logs
            (json (get_logs (exec (addLogs all_up (numbered 30))
                               initial_state)))) = 20 /\
  LogsPage.total
    (json (get_logs (exec (addLogs all_up (numbered 30)) initial_state)))
    = 30.
Proof.
  assert (H0 : length (recentLogs initial_state) <= 50) by (cbn; lia).
  split; [exact H0|].
  pose proof (get_logs_shows_newest_twenty all_up (numbered 30)
                initial_state H0) as H.
  cbv zeta in H. destruct H as (_ & _ & Hlen & Htotal).
  rewrite Hlen, Htotal. split; reflexivity.
Defined.

(** X3 on the first append of a process. *)
Lemma get_root_witness_first_append :
  toISOString all_up (clock initial_state) <> EmptyString /\
  StatusPage.lastActivity (json (get_root initial_state))
    = "No activity yet" /\
  StatusPage.lastActivity
    (json (get_root (exec (addLog all_up "Manual test initiated" "info")
                       initial_state))) = "T0".
Proof.
  assert (Hstamp : toISOString all_up (clock initial_state) <> EmptyString)
    by discriminate.
  split; [exact Hstamp|].
  destruct (get_root_reports_last_activity all_up initial_state
              "Manual test initiated" "info") as (Hempty & Hlast & _).
  split; [exact (Hempty eq_refl)|exact (Hlast Hstamp)].
Defined.


(** X6 with both sinks down: the success line is still the newest entry. *)
Lemma pipeline_success_witness_sinks_down :
  resolveCustomer (world true false false) (intent (Some "cus_1"))
    initial_state = (Ok ada, after_lookup) /\
  hd_error
    (recentLogs (exec (processFailedPayment (world true false false)
                         (intent (Some "cus_1"))) initial_state))
  = Some {| timestamp := "T4";
            message := "Successfully processed failed payment: pi_1";
            type := "info" |}.
Proof.
  split; [reflexivity|].
  pose proof (pipeline_logs_success_whatever_the_sinks_did
                (world true false false) (intent (Some "cus_1")) initial_state
                ada after_lookup eq_refl) as H.
  cbv zeta in H. destruct H as (Hhead & _). exact Hhead.
Defined.

(** X12 with the table missing. *)
Lemma ensureFailedPaymentsTable_witness_table_missing :
  failed_payments_firstPage (deployment true false)
    (calls (process initial_server)) (probes initial_server)
    = Throw {| JsError.message := "TABLE_NOT_FOUND" |} /\
  fst (ensureFailedPaymentsTable all_up (deployment true false) initial_server)
    = Ok false /\
  calls (process (snd (ensureFailedPaymentsTable all_up
                         (deployment true false) initial_server))) = [].
Proof.
  split; [reflexivity|].
  pose proof (ensureFailedPaymentsTable_is_advisory all_up
                (deployment true false) initial_server) as H.
  cbv zeta in H. destruct H as (Hcalls & _ & _ & Hfail).
  split; [exact (proj1 (Hfail _ eq_refl))|exact Hcalls].
Defined.

(** X14 with the table read failing after a working Stripe list. *)
Lemma get_health_witness_table_down :
  customers_list (deployment true false) (calls (process initial_server))
    (probes initial_server) = Ok tt /\
  fst (get_health all_up (deployment true false) initial_server)
    = Ok {| code := 500;
            json := Health.unhealthy "unhealthy" "TABLE_NOT_FOUND" "T0" |}.
Proof.
  split; [reflexivity|].
  pose proof (get_health_reports_first_failure all_up (deployment true false)
                initial_server) as H.
  cbv zeta in H. destruct H as (_ & _ & _ & Hread & _).
  exact (Hread _ eq_refl eq_refl).
Defined.

(** X15 with the Stripe list failing: nothing else is contacted. *)
Lemma get_health_witness_stripe_down :
  customers_list (deployment false true) (calls (process initial_server))
    (probes initial_server)
    = Throw {| JsError.message := "Invalid API Key provided" |} /\
  probes (snd (get_health all_up (deployment false true) initial_server))
    = [CustomersList 1] /\
  calls (process (snd (get_health all_up (deployment false true)
                         initial_server))) = [].
Proof.
  split; [reflexivity|].
  pose proof (get_health_stops_at_first_failure all_up (deployment false true)
                initial_server) as H.
  cbv zeta in H. destruct H as (_ & _ & _ & Hlist & _).
  exact (Hlist _ eq_refl).
Defined.

End RouteRuns.
